(** * Occurrences of recurring events (eventtools/models/occurrences.py)

    A shallow embedding of [OccurrenceBase] and of the part of the Python 2
    runtime it relies on ([datetime.date], [datetime.time],
    [datetime.datetime], [None], truthiness, comparisons, exceptions),
    followed by the properties of the occurrence model. *)

From stdpp Require Import gmap strings list.

Set Default Proof Using "Type".

(** ** Exceptions and fallible computations *)

Inductive exn :=
| TypeError
| AttributeError (msg : string)
| ValueError
| OverflowError.

Inductive result (A : Type) :=
| Ok (a : A)
| Raise (e : exn).
Arguments Ok {A} a.
Arguments Raise {A} e.

Definition bind {A B} (r : result A) (k : A -> result B) : result B :=
  match r with
  | Ok a => k a
  | Raise e => Raise e
  end.

Notation "'let!' x ':=' r 'in' k" := (bind r (fun x => k))
  (at level 10, x name, r at level 100, k at level 200).

#[global] Instance exn_eq_dec : EqDecision exn.
Proof. solve_decision. Defined.

(** ** The Python runtime seen by the model *)

Module Py.

Local Open Scope Z_scope.

(** Naive calendar values, field by field as [datetime] stores them. *)
Record date := Date { year : Z; month : Z; day : Z }.
Record time := Time { hour : Z; minute : Z; second : Z; microsecond : Z }.
Record datetime := Datetime { dt_date : date; dt_time : time }.

#[global] Instance date_eq_dec : EqDecision date.
Proof. solve_decision. Defined.
#[global] Instance time_eq_dec : EqDecision time.
Proof. solve_decision. Defined.
#[global] Instance datetime_eq_dec : EqDecision datetime.
Proof. solve_decision. Defined.

(** Three-way comparison, with Python's [-1], [0], [1]. *)
Definition int_cmp (a b : Z) : Z :=
  match Z.compare a b with
  | Lt => -1
  | Eq => 0
  | Gt => 1
  end.

Definition then_cmp (c rest : Z) : Z :=
  if decide (c = 0) then rest else c.

Definition date_cmp (a b : date) : Z :=
  then_cmp (int_cmp (year a) (year b))
    (then_cmp (int_cmp (month a) (month b))
       (int_cmp (day a) (day b))).

Definition time_cmp (a b : time) : Z :=
  then_cmp (int_cmp (hour a) (hour b))
    (then_cmp (int_cmp (minute a) (minute b))
       (then_cmp (int_cmp (second a) (second b))
          (int_cmp (microsecond a) (microsecond b)))).

(** [cmp(a, b)] on two datetimes. *)
Definition cmp (a b : datetime) : Z :=
  then_cmp (date_cmp (dt_date a) (dt_date b))
           (time_cmp (dt_time a) (dt_time b)).

(** [a == b] and [a != b] on two datetimes. *)
Definition datetime_eq (a b : datetime) : bool := bool_decide (cmp a b = 0).
Definition datetime_ne (a b : datetime) : bool := negb (datetime_eq a b).

Definition date_lt (a b : date) : Prop := date_cmp a b < 0.
Definition time_lt (a b : time) : Prop := time_cmp a b < 0.
Definition datetime_lt (a b : datetime) : Prop := cmp a b < 0.

#[global] Instance date_lt_dec : RelDecision date_lt.
Proof. intros a b. unfold date_lt. apply _. Defined.
#[global] Instance time_lt_dec : RelDecision time_lt.
Proof. intros a b. unfold time_lt. apply _. Defined.
#[global] Instance datetime_lt_dec : RelDecision datetime_lt.
Proof. intros a b. unfold datetime_lt. apply _. Defined.

(** [datetime.replace(hour=h, minute=m)]: seconds and microseconds stay. *)
Definition replace_hour_minute (d : datetime) (h m : Z) : datetime :=
  Datetime (dt_date d)
           (Time h m (second (dt_time d)) (microsecond (dt_time d))).

(** [d + datetime.timedelta(1)]. *)
Definition is_leap (y : Z) : bool :=
  (y mod 4 =? 0) && (negb (y mod 100 =? 0) || (y mod 400 =? 0)).

Definition days_in_month (y m : Z) : Z :=
  match m with
  | 2 => if is_leap y then 29 else 28
  | 4 | 6 | 9 | 11 => 30
  | _ => 31
  end.

Definition tomorrow (d : date) : result date :=
  if day d <? days_in_month (year d) (month d)
  then Ok (Date (year d) (month d) (day d + 1))
  else if month d <? 12 then Ok (Date (year d) (month d + 1) 1)
  else if year d <? 9999 then Ok (Date (year d + 1) 1 1)
  else Raise OverflowError.

Definition add_one_day (d : datetime) : result datetime :=
  let! d' := tomorrow (dt_date d) in
  Ok (Datetime d' (dt_time d)).

(** [t.strftime("%H:%M")]. *)
Definition digit (n : Z) : Ascii.ascii := Ascii.ascii_of_N (Z.to_N (48 + n)).

Definition two_digits (n : Z) : string :=
  String (digit (n / 10)) (String (digit (n mod 10)) EmptyString).

Definition strftime_HM (t : time) : string :=
  two_digits (hour t) +:+ ":" +:+ two_digits (minute t).

(** An object handed over by reference: where it lives and what it holds.
    Only the datetime given to a property setter needs this, because the
    setters keep methods bound to it. *)
Record datetime_object := DatetimeObject { address : Z; contents : datetime }.

Inductive method_name := meth_date | meth_time.

#[global] Instance method_name_eq_dec : EqDecision method_name.
Proof. solve_decision. Defined.

(** What an attribute of an occurrence that is meant for a date or a time
    can hold: [None], a date, a time, or the built-in method object
    [value.date] / [value.time] of a datetime. *)
Inductive value :=
| VNone
| VDate (d : date)
| VTime (t : time)
| VMethod (self : datetime_object) (name : method_name).

(** Truth value.  In Python 2 a naive [time] is false at midnight. *)
Definition truthy (v : value) : bool :=
  match v with
  | VNone => false
  | VDate _ => true
  | VTime t =>
      negb ((hour t * 60 + minute t =? 0) && (second t =? 0) && (microsecond t =? 0))
  | VMethod _ _ => true
  end.

(** [a or b]. *)
Definition py_or (a b : value) : value := if truthy a then a else b.

(** [datetime.datetime.combine(d, t)]: both arguments are type-checked. *)
Definition combine (d t : value) : result datetime :=
  match d, t with
  | VDate d, VTime t => Ok (Datetime d t)
  | _, _ => Raise TypeError
  end.

(** Two built-in method objects are ordered by the address of the object
    they are bound to, then by the method. *)
Definition meth_compare (a : datetime_object) (m : method_name)
                        (b : datetime_object) (n : method_name) : Z :=
  if decide (address a = address b) then
    match m, n with
    | meth_date, meth_time => -1
    | meth_time, meth_date => 1
    | _, _ => 0
    end
  else if (address a <? address b) then (-1) else 1.

(** [a != b] never raises on these values. *)
Definition py_ne (a b : value) : bool :=
  match a, b with
  | VNone, VNone => false
  | VDate x, VDate y => negb (bool_decide (date_cmp x y = 0))
  | VTime x, VTime y => negb (bool_decide (time_cmp x y = 0))
  | VMethod x m, VMethod y n => negb (bool_decide (meth_compare x m y n = 0))
  | _, _ => true
  end.

(** The three-way outcome behind [a < b] and [a > b].  A date or a time
    refuses to be ordered against anything of another type; [None] is
    smaller than a method object. *)
Definition py_order (a b : value) : result Z :=
  match a, b with
  | VNone, VNone => Ok 0
  | VNone, VMethod _ _ => Ok (-1)
  | VMethod _ _, VNone => Ok 1
  | VMethod x m, VMethod y n => Ok (meth_compare x m y n)
  | VDate x, VDate y => Ok (date_cmp x y)
  | VTime x, VTime y => Ok (time_cmp x y)
  | _, _ => Raise TypeError
  end.

Definition py_lt (a b : value) : result bool :=
  let! c := py_order a b in Ok (c <? 0).

Definition py_gt (a b : value) : result bool :=
  let! c := py_order a b in Ok (0 <? c).

(** [v.strftime("%H:%M")].  A date prints midnight and, in Python 2,
    refuses years before 1900; [None] and method objects have no such
    attribute. *)
Definition py_strftime_HM (v : value) : result string :=
  match v with
  | VTime t => Ok (strftime_HM t)
  | VDate d => if year d <? 1900 then Raise ValueError else Ok "00:00"
  | VNone => Raise (AttributeError "'NoneType' object has no attribute 'strftime'")
  | VMethod _ _ =>
      Raise (AttributeError
        "'builtin_function_or_method' object has no attribute 'strftime'")
  end.

End Py.
Export Py.

(** ** Collaborators

    The event, its generator and its variations live outside this file;
    the occurrence model only uses what is listed here. *)

Class Collaborators := {
  Event : Type;
  Generator : Type;
  EventVariation : Type;
  (** [generator.event] *)
  event : Generator -> Event;
  (** [event == other_event] *)
  event_eq : Event -> Event -> bool;
  (** [varied_event.reason] *)
  variation_reason : EventVariation -> string;
  (** [MergedObject(unvaried_event, varied_event).title] *)
  merged_title : Event -> option EventVariation -> string;
}.

(** ** The occurrence model *)

Section Occurrences.

Context `{Collaborators}.

(** The attributes of an occurrence.  [_varied_event] is injected by the
    event's metaclass only when the event class declares [varied_by]: the
    outer [None] is "no such attribute", [Some None] is an attribute
    holding Python's [None]. *)
Record OccurrenceBase := {
  generator : Generator;
  _varied_event : option (option EventVariation);
  unvaried_start_date : value;
  unvaried_start_time : value;
  unvaried_end_date : value;
  unvaried_end_time : value;
  varied_start_date : value;
  varied_start_time : value;
  varied_end_date : value;
  varied_end_time : value;
  cancelled : bool;
  hide_from_lists : bool;
}.

(** Attribute assignments. *)
Definition assign_unvaried_start (d t : value) (self : OccurrenceBase) :=
  {| generator := generator self; _varied_event := _varied_event self;
     unvaried_start_date := d; unvaried_start_time := t;
     unvaried_end_date := unvaried_end_date self;
     unvaried_end_time := unvaried_end_time self;
     varied_start_date := varied_start_date self;
     varied_start_time := varied_start_time self;
     varied_end_date := varied_end_date self;
     varied_end_time := varied_end_time self;
     cancelled := cancelled self; hide_from_lists := hide_from_lists self |}.

Definition assign_unvaried_end (d t : value) (self : OccurrenceBase) :=
  {| generator := generator self; _varied_event := _varied_event self;
     unvaried_start_date := unvaried_start_date self;
     unvaried_start_time := unvaried_start_time self;
     unvaried_end_date := d; unvaried_end_time := t;
     varied_start_date := varied_start_date self;
     varied_start_time := varied_start_time self;
     varied_end_date := varied_end_date self;
     varied_end_time := varied_end_time self;
     cancelled := cancelled self; hide_from_lists := hide_from_lists self |}.

Definition assign_varied_start (d t : value) (self : OccurrenceBase) :=
  {| generator := generator self; _varied_event := _varied_event self;
     unvaried_start_date := unvaried_start_date self;
     unvaried_start_time := unvaried_start_time self;
     unvaried_end_date := unvaried_end_date self;
     unvaried_end_time := unvaried_end_time self;
     varied_start_date := d; varied_start_time := t;
     varied_end_date := varied_end_date self;
     varied_end_time := varied_end_time self;
     cancelled := cancelled self; hide_from_lists := hide_from_lists self |}.

Definition assign_varied_end (d t : value) (self : OccurrenceBase) :=
  {| generator := generator self; _varied_event := _varied_event self;
     unvaried_start_date := unvaried_start_date self;
     unvaried_start_time := unvaried_start_time self;
     unvaried_end_date := unvaried_end_date self;
     unvaried_end_time := unvaried_end_time self;
     varied_start_date := varied_start_date self;
     varied_start_time := varied_start_time self;
     varied_end_date := d; varied_end_time := t;
     cancelled := cancelled self; hide_from_lists := hide_from_lists self |}.

Definition assign__varied_event (v : option EventVariation) (self : OccurrenceBase) :=
  {| generator := generator self; _varied_event := Some v;
     unvaried_start_date := unvaried_start_date self;
     unvaried_start_time := unvaried_start_time self;
     unvaried_end_date := unvaried_end_date self;
     unvaried_end_time := unvaried_end_time self;
     varied_start_date := varied_start_date self;
     varied_start_time := varied_start_time self;
     varied_end_date := varied_end_date self;
     varied_end_time := varied_end_time self;
     cancelled := cancelled self; hide_from_lists := hide_from_lists self |}.

Definition assign_flags (c h : bool) (self : OccurrenceBase) :=
  {| generator := generator self; _varied_event := _varied_event self;
     unvaried_start_date := unvaried_start_date self;
     unvaried_start_time := unvaried_start_time self;
     unvaried_end_date := unvaried_end_date self;
     unvaried_end_time := unvaried_end_time self;
     varied_start_date := varied_start_date self;
     varied_start_time := varied_start_time self;
     varied_end_date := varied_end_date self;
     varied_end_time := varied_end_time self;
     cancelled := c; hide_from_lists := h |}.

(** *** Construction *)

(** The [(uv_key, v_key)] pairs [__init__] walks through. *)
Definition key_pairs : list (string * string) :=
  [ ("unvaried_start_date", "varied_start_date");
    ("unvaried_start_time", "varied_start_time");
    ("unvaried_end_date", "varied_end_date");
    ("unvaried_end_time", "varied_end_time") ].

(** One round of the loop: [kwargs] is updated in place. *)
Definition backfill_step (kwargs : gmap string value) (p : string * string)
  : gmap string value :=
  let '(uv_key, v_key) := p in
  match kwargs !! v_key with
  | Some _ => kwargs
  | None =>
      match kwargs !! uv_key with
      | Some x => <[v_key := x]> kwargs
      | None => <[v_key := VNone]> kwargs
      end
  end.

Definition backfill (kwargs : gmap string value) : gmap string value :=
  foldl backfill_step kwargs key_pairs.

(** The date and time fields declared on the model. *)
Definition field_names : list string :=
  [ "unvaried_start_date"; "unvaried_start_time";
    "unvaried_end_date"; "unvaried_end_time";
    "varied_start_date"; "varied_start_time";
    "varied_end_date"; "varied_end_time" ].

(** [models.Model.__init__] called with keywords, the framework's
    constructor: a field
    named in [kwargs] takes the value given, with no validation; a field
    that is not named takes its default, [None] for a date or time field
    and [False] for the two flags; a keyword that names nothing raises
    [TypeError].  The dict holds the date and time keywords; the generator
    comes as [g]; [varied_by] says whether the concrete class carries the
    [_varied_event] attribute. *)
Definition Model__init__ (varied_by : bool) (g : Generator)
    (kwargs : gmap string value) : result OccurrenceBase :=
  if bool_decide (dom kwargs ⊆ list_to_set field_names) then
    let field name := default VNone (kwargs !! name) in
    Ok {| generator := g;
          _varied_event := if varied_by then Some None else None;
          unvaried_start_date := field "unvaried_start_date";
          unvaried_start_time := field "unvaried_start_time";
          unvaried_end_date := field "unvaried_end_date";
          unvaried_end_time := field "unvaried_end_time";
          varied_start_date := field "varied_start_date";
          varied_start_time := field "varied_start_time";
          varied_end_date := field "varied_end_date";
          varied_end_time := field "varied_end_time";
          cancelled := false;
          hide_from_lists := false |}
  else Raise TypeError.

(** [OccurrenceBase.__init__] called with keywords. *)
Definition __init__ (varied_by : bool) (g : Generator)
    (kwargs : gmap string value) : result OccurrenceBase :=
  Model__init__ varied_by g (backfill kwargs).

(** *** Start and end properties *)

Definition _get_varied_start (self : OccurrenceBase) : result datetime :=
  combine (varied_start_date self) (varied_start_time self).

(** The setter keeps the methods [value.date] and [value.time] themselves. *)
Definition _set_varied_start (value : datetime_object) (self : OccurrenceBase)
  : OccurrenceBase :=
  assign_varied_start (VMethod value meth_date) (VMethod value meth_time) self.

Definition varied_start := _get_varied_start.
Definition start := _get_varied_start.

Definition _get_varied_end (self : OccurrenceBase) : result datetime :=
  combine (py_or (varied_end_date self) (varied_start_date self))
          (varied_end_time self).

Definition _set_varied_end (value : datetime_object) (self : OccurrenceBase)
  : OccurrenceBase :=
  assign_varied_end (VMethod value meth_date) (VMethod value meth_time) self.

Definition varied_end := _get_varied_end.
Definition end_ := _get_varied_end.

Definition _get_unvaried_start (self : OccurrenceBase) : result datetime :=
  combine (unvaried_start_date self) (unvaried_start_time self).

(** This setter calls [value.date()] and [value.time()]. *)
Definition _set_unvaried_start (value : datetime_object) (self : OccurrenceBase)
  : OccurrenceBase :=
  assign_unvaried_start (VDate (dt_date (contents value)))
                        (VTime (dt_time (contents value))) self.

Definition unvaried_start := _get_unvaried_start.
Definition original_start := _get_unvaried_start.

Definition _get_unvaried_end (self : OccurrenceBase) : result datetime :=
  combine (py_or (unvaried_end_date self) (unvaried_start_date self))
          (unvaried_end_time self).

Definition _set_unvaried_end (value : datetime_object) (self : OccurrenceBase)
  : OccurrenceBase :=
  assign_unvaried_end (VMethod value meth_date) (VMethod value meth_time) self.

Definition unvaried_end := _get_unvaried_end.
Definition original_end := _get_unvaried_end.

(** *** The variation *)

(** [getattr(self, "_varied_event", None)] *)
Definition _get_varied_event (self : OccurrenceBase) : option EventVariation :=
  match _varied_event self with
  | Some v => v
  | None => None
  end.

(** The setter leaves the occurrence as it finds it when it raises. *)
Definition _set_varied_event (v : option EventVariation) (self : OccurrenceBase)
  : OccurrenceBase * result unit :=
  match _varied_event self with
  | Some _ => (assign__varied_event v self, Ok tt)
  | None =>
      (self,
       Raise (AttributeError
         "You can't set an event variation for an event class with no 'varied_by' attribute."))
  end.

Definition varied_event := _get_varied_event.

Definition _get_unvaried_event (self : OccurrenceBase) : Event :=
  event (generator self).

Definition unvaried_event := _get_unvaried_event.

(** *** Derived state *)

Definition _is_moved (self : OccurrenceBase) : result bool :=
  let! us := unvaried_start self in
  let! vs := varied_start self in
  if datetime_ne us vs then Ok true
  else
    let! ue := unvaried_end self in
    let! ve := varied_end self in
    Ok (datetime_ne ue ve).

Definition is_moved := _is_moved.

Definition _is_varied (self : OccurrenceBase) : result bool :=
  let! moved := is_moved self in
  if moved then Ok true else Ok (cancelled self).

Definition is_varied := _is_varied.

Definition _start_time (self : OccurrenceBase) : value := varied_start_time self.
Definition start_time := _start_time.
Definition _end_time (self : OccurrenceBase) : value := varied_end_time self.
Definition end_time := _end_time.
Definition _start_date (self : OccurrenceBase) : value := varied_start_date self.
Definition start_date := _start_date.
Definition _end_date (self : OccurrenceBase) : value := varied_end_date self.
Definition end_date := _end_date.

(** *** Comparison *)

Definition __cmp__ (self other : OccurrenceBase) : result Z :=
  let! s1 := start self in
  let! s2 := start other in
  let rank := cmp s1 s2 in
  if decide (rank = 0%Z) then
    let! e1 := end_ self in
    let! e2 := end_ other in
    Ok (cmp e1 e2)
  else Ok rank.

Definition __eq__ (self other : OccurrenceBase) : result bool :=
  if event_eq (event (generator self)) (event (generator other)) then
    let! s1 := original_start self in
    let! s2 := original_start other in
    if datetime_eq s1 s2 then
      let! e1 := original_end self in
      let! e2 := original_end other in
      Ok (datetime_eq e1 e2)
    else Ok false
  else Ok false.

(** *** Calendar export *)

Record ICalendar := {
  summary : string;
  dtstart : datetime;
  dtend : datetime;
}.

Definition as_icalendar (self : OccurrenceBase) : result ICalendar :=
  let title := merged_title (unvaried_event self) (varied_event self) in
  let! s := combine (start_date self) (start_time self) in
  let! e := combine (end_date self) (end_time self) in
  Ok {| summary := title; dtstart := s; dtend := e |}.

(** *** Reason *)

(** A variation object, once attached, counts as true; the clauses compare
    the raw fields, with no defaulting of an absent end time. *)
Definition reason (self : OccurrenceBase) : result string :=
  match varied_event self with
  | Some v => Ok (variation_reason v)
  | None =>
      if cancelled self then Ok "Cancelled"
      else
        let messages := [] in
        let messages :=
          if py_ne (varied_start_date self) (unvaried_start_date self)
          then messages ++ ["new date"] else messages in
        let! earlier := py_lt (varied_start_time self) (unvaried_start_time self) in
        let! messages :=
          if earlier then
            let! hm := py_strftime_HM (varied_start_time self) in
            Ok (messages ++ ["starts earlier at " +:+ hm])
          else
            let! later := py_gt (varied_start_time self) (unvaried_start_time self) in
            if later then
              let! hm := py_strftime_HM (varied_start_time self) in
              Ok (messages ++ ["starts later at " +:+ hm])
            else Ok messages in
        let! earlier := py_lt (varied_end_time self) (unvaried_end_time self) in
        let! messages :=
          if earlier then
            let! hm := py_strftime_HM (varied_end_time self) in
            Ok (messages ++ ["ends earlier at " +:+ hm])
          else
            let! later := py_gt (varied_end_time self) (unvaried_end_time self) in
            if later then
              let! hm := py_strftime_HM (varied_end_time self) in
              Ok (messages ++ ["ends later at " +:+ hm])
            else Ok messages in
        Ok (String.concat ", " messages)
  end.

(** *** Position in the day's list *)

(** [event.get_occurrences(start, end)], the event's own listing. *)
Variable get_occurrences :
  Event -> datetime -> datetime -> result (list OccurrenceBase).

(** [occurrence_list.index(x)]: the first position whose element answers
    [==] with true; [ValueError] when there is none.  The list is built
    afresh by the event, so no element is the object [x] itself. *)
Fixpoint index (occurrence_list : list OccurrenceBase) (x : OccurrenceBase)
  : result nat :=
  match occurrence_list with
  | [] => Raise ValueError
  | y :: rest =>
      let! same := __eq__ y x in
      if same then Ok 0
      else let! i := index rest x in Ok (S i)
  end.

Definition generated_id (self : OccurrenceBase) : result nat :=
  let! s := start self in
  let daystart := replace_hour_minute s 0 0 in
  let! dayend := add_one_day daystart in
  let! occurrence_list :=
    get_occurrences (event (generator self)) daystart dayend in
  index occurrence_list self.

End Occurrences.

(** ** Dates as text

    [datetime.strftime] for the three formats the occurrence uses.  The
    names are those of the C locale; Python 2 refuses years before 1900
    whatever the format. *)

Module Strftime.

Local Open Scope Z_scope.

Definition days_before_year (y : Z) : Z :=
  let y1 := y - 1 in y1 * 365 + y1 / 4 - y1 / 100 + y1 / 400.

Definition days_before_month (y m : Z) : Z :=
  foldr Z.add 0 (days_in_month y <$> seqZ 1 (m - 1)).

Definition toordinal (d : date) : Z :=
  days_before_year (year d) + days_before_month (year d) (month d) + day d.

(** Monday is 0. *)
Definition weekday (d : date) : Z := (toordinal d + 6) mod 7.

Definition day_abbr (w : Z) : string :=
  match w with
  | 0 => "Mon" | 1 => "Tue" | 2 => "Wed" | 3 => "Thu"
  | 4 => "Fri" | 5 => "Sat" | _ => "Sun"
  end.

Definition month_abbr (m : Z) : string :=
  match m with
  | 1 => "Jan" | 2 => "Feb" | 3 => "Mar" | 4 => "Apr"
  | 5 => "May" | 6 => "Jun" | 7 => "Jul" | 8 => "Aug"
  | 9 => "Sep" | 10 => "Oct" | 11 => "Nov" | _ => "Dec"
  end.

Definition four_digits (n : Z) : string :=
  String (digit (n / 1000))
    (String (digit (n / 100 mod 10)) (two_digits (n mod 100))).

(** The text of ['%a, %d %b %Y']. *)
Definition day_text (d : date) : string :=
  day_abbr (weekday d) +:+ ", " +:+ two_digits (day d) +:+ " "
    +:+ month_abbr (month d) +:+ " " +:+ four_digits (year d).

(** [dt.strftime('%a, %d %b %Y')] *)
Definition strftime_day (dt : datetime) : result string :=
  if year (dt_date dt) <? 1900 then Raise ValueError
  else Ok (day_text (dt_date dt)).

(** [dt.strftime('%H:%M')] *)
Definition strftime_time (dt : datetime) : result string :=
  if year (dt_date dt) <? 1900 then Raise ValueError
  else Ok (strftime_HM (dt_time dt)).

(** [dt.strftime('%a, %d %b %Y %H:%M')] *)
Definition strftime_day_time (dt : datetime) : result string :=
  if year (dt_date dt) <? 1900 then Raise ValueError
  else Ok (day_text (dt_date dt) +:+ " " +:+ strftime_HM (dt_time dt)).

End Strftime.
Export Strftime.

(** ** Persistence and display of an occurrence *)

Section Persistence.

Context `{Collaborators}.

(** [self.save()], the framework's write to the database: it may change
    the store and it may raise; it leaves the attributes modelled here
    alone. *)
Variable Store : Type.
Variable save : OccurrenceBase -> Store -> Store * result unit.

(** The attribute is assigned before the write is attempted. *)
Definition cancel (self : OccurrenceBase) (db : Store)
  : OccurrenceBase * Store * result unit :=
  let self := assign_flags true (hide_from_lists self) self in
  let '(db, r) := save self db in
  (self, db, r).

Definition uncancel (self : OccurrenceBase) (db : Store)
  : OccurrenceBase * Store * result unit :=
  let self := assign_flags false (hide_from_lists self) self in
  let '(db, r) := save self db in
  (self, db, r).

End Persistence.

Section Display.

Context `{Collaborators}.

(** [event.title] *)
Variable event_title : Event -> string.

(** [ugettext(message)], the translation of a message. *)
Variable ugettext : string -> string.

(** [format % mapping], Python's formatting of a string with a dict. *)
Variable py_percent : string -> gmap string string -> result string.

Definition __unicode__ (self : OccurrenceBase) : result string :=
  let format := ugettext "%(event)s: %(day)s" in
  let title := event_title (event (generator self)) in
  let! s := varied_start self in
  let! day := strftime_day s in
  py_percent format {[ "event" := title; "day" := day ]}.

Definition unvaried_range_string (self : OccurrenceBase) : result string :=
  let format := ugettext "%(start)s–%(end)s" in
  let! s := unvaried_start self in
  let! start_text := strftime_day_time s in
  let! e := unvaried_end self in
  let! end_text := strftime_day_time e in
  py_percent format {[ "start" := start_text; "end" := end_text ]}.

Definition varied_range_string (self : OccurrenceBase) : result string :=
  let format := ugettext "%(start)s–%(end)s" in
  let! s := varied_start self in
  let! start_text := strftime_day_time s in
  let! e := varied_end self in
  let! end_text := strftime_day_time e in
  py_percent format {[ "start" := start_text; "end" := end_text ]}.

Definition date_description (self : OccurrenceBase) : result string :=
  let format := ugettext "%(day)s, %(time)s" in
  let! s := varied_start self in
  let! day := strftime_day s in
  let! s' := varied_start self in
  let! time_text := strftime_time s' in
  py_percent format {[ "day" := day; "time" := time_text ]}.

End Display.

(** ** Sample data

    A concrete setting for the worked examples: events are numbered, a
    generator is a pair of its own number and its event's number, and a
    variation is just its reason. *)

Module Sample.

Local Open Scope Z_scope.

#[export] Instance collaborators : Collaborators := {|
  Event := nat;
  Generator := nat * nat;
  EventVariation := string;
  event := snd;
  event_eq := Nat.eqb;
  variation_reason := fun v => v;
  merged_title := fun e v => default "Concert" v;
|}.

Definition new_year : date := Date 2024 1 1.
Definition hm (h m : Z) : time := Time h m 0 0.

(** 2024-01-01 09:00 to 10:00, from generator [g], neither moved nor
    cancelled, on a class without variations. *)
Definition plain (g : Generator) : OccurrenceBase := {|
  generator := g;
  _varied_event := None;
  unvaried_start_date := VDate new_year;
  unvaried_start_time := VTime (hm 9 0);
  unvaried_end_date := VDate new_year;
  unvaried_end_time := VTime (hm 10 0);
  varied_start_date := VDate new_year;
  varied_start_time := VTime (hm 9 0);
  varied_end_date := VDate new_year;
  varied_end_time := VTime (hm 10 0);
  cancelled := false;
  hide_from_lists := false;
|}.

(** The same occurrence retimed to 08:00 - 10:30. *)
Definition retimed : OccurrenceBase :=
  assign_varied_end (VDate new_year) (VTime (hm 10 30))
    (assign_varied_start (VDate new_year) (VTime (hm 8 0))
       (plain ((1%nat, 7%nat) : Generator))).

(** What [Occurrence()] leaves behind: every date and time is [None]. *)
Definition blank (g : Generator) : OccurrenceBase := {|
  generator := g;
  _varied_event := None;
  unvaried_start_date := VNone;
  unvaried_start_time := VNone;
  unvaried_end_date := VNone;
  unvaried_end_time := VNone;
  varied_start_date := VNone;
  varied_start_time := VNone;
  varied_end_date := VNone;
  varied_end_time := VNone;
  cancelled := false;
  hide_from_lists := false;
|}.

(** An event with two generators, each yielding the 09:00 occurrence of
    2024-01-01; the event lists them one after the other. *)
Definition first_generator : Generator := (1%nat, 7%nat).
Definition second_generator : Generator := (2%nat, 7%nat).

(** A generator of another event. *)
Definition other_generator : Generator := (3%nat, 8%nat).

Definition get_occurrences (e : Event) (range_start range_end : datetime)
  : result (list OccurrenceBase) :=
  Ok [plain first_generator; plain second_generator].

(** A store that keeps the occurrences written to it, newest first, and a
    write that never fails. *)
Definition save (self : OccurrenceBase) (db : list OccurrenceBase)
  : list OccurrenceBase * result unit :=
  (self :: db, Ok tt).

(** A database that is down. *)
Definition save_down (self : OccurrenceBase) (db : list OccurrenceBase)
  : list OccurrenceBase * result unit :=
  (db, Raise ValueError).

Definition event_title (e : Event) : string := "Concert".

(** No translation is active. *)
Definition ugettext (message : string) : string := message.

(** Formatting, for the three messages of the occurrence. *)
Definition py_percent (format : string) (mapping : gmap string string)
  : result string :=
  let get key := default "" (mapping !! key) in
  if decide (format = "%(start)s–%(end)s")
  then Ok (get "start" +:+ "–" +:+ get "end")
  else if decide (format = "%(event)s: %(day)s")
  then Ok (get "event" +:+ ": " +:+ get "day")
  else if decide (format = "%(day)s, %(time)s")
  then Ok (get "day" +:+ ", " +:+ get "time")
  else Raise ValueError.

(** The 09:00 occurrence put off to 11:00 - 12:00. *)
Definition postponed : OccurrenceBase :=
  assign_varied_end (VDate new_year) (VTime (hm 12 0))
    (assign_varied_start (VDate new_year) (VTime (hm 11 0)) (plain first_generator)).

(** The 09:00 occurrence made to end a day later, at the same time. *)
Definition overnight : OccurrenceBase :=
  assign_varied_end (VDate (Date 2024 1 2)) (VTime (hm 10 0)) (plain first_generator).

(** An occurrence that had no end and was given a varied end time. *)
Definition given_an_end : OccurrenceBase :=
  assign_unvaried_end VNone VNone (plain first_generator).

(** The plain occurrence on a class that carries the variation. *)
Definition variable_plain : OccurrenceBase :=
  assign__varied_event None (plain first_generator).

(** Keywords of a call that gives the unvaried start and another varied
    start date. *)
Definition moved_kwargs : gmap string value :=
  {[ "unvaried_start_date" := VDate new_year;
     "unvaried_start_time" := VTime (hm 9 0);
     "varied_start_date" := VDate (Date 2024 1 2) ]}.


End Sample.

(** * Properties *)

(** ** Comparison of calendar values *)

Section Comparison.

Local Open Scope Z_scope.

Lemma int_cmp_eq0 a b : int_cmp a b = 0 <-> a = b.
Proof. unfold int_cmp. destruct (Z.compare_spec a b); lia. Qed.

Lemma int_cmp_lt a b : int_cmp a b < 0 <-> a < b.
Proof. unfold int_cmp. destruct (Z.compare_spec a b); lia. Qed.

Lemma int_cmp_opp a b : int_cmp b a = - int_cmp a b.
Proof.
  unfold int_cmp. rewrite (Z.compare_antisym a b).
  by destruct (a ?= b).
Qed.

Lemma int_cmp_range a b : -1 <= int_cmp a b <= 1.
Proof. unfold int_cmp. destruct (a ?= b); lia. Qed.

Lemma then_cmp_eq0 c r : then_cmp c r = 0 <-> c = 0 /\ r = 0.
Proof. unfold then_cmp. case_decide; lia. Qed.

Lemma then_cmp_lt c r : then_cmp c r < 0 <-> c < 0 \/ (c = 0 /\ r < 0).
Proof. unfold then_cmp. case_decide; lia. Qed.

Lemma then_cmp_opp c r : then_cmp (- c) (- r) = - then_cmp c r.
Proof. unfold then_cmp. repeat case_decide; lia. Qed.

Lemma then_cmp_range c r :
  -1 <= c <= 1 -> -1 <= r <= 1 -> -1 <= then_cmp c r <= 1.
Proof. unfold then_cmp. case_decide; lia. Qed.

Lemma date_cmp_eq0 a b : date_cmp a b = 0 <-> a = b.
Proof.
  unfold date_cmp. rewrite !then_cmp_eq0, !int_cmp_eq0.
  destruct a, b; simpl; split; [intros (-> & -> & ->) | intros [= -> -> ->]]; done.
Qed.

Lemma time_cmp_eq0 a b : time_cmp a b = 0 <-> a = b.
Proof.
  unfold time_cmp. rewrite !then_cmp_eq0, !int_cmp_eq0.
  destruct a, b; simpl; split;
    [intros (-> & -> & -> & ->) | intros [= -> -> -> ->]]; done.
Qed.

Lemma cmp_eq0 a b : cmp a b = 0 <-> a = b.
Proof.
  unfold cmp. rewrite then_cmp_eq0, date_cmp_eq0, time_cmp_eq0.
  destruct a, b; simpl; split; [intros [-> ->] | intros [= -> ->]]; done.
Qed.

Lemma cmp_refl a : cmp a a = 0.
Proof. by apply cmp_eq0. Qed.

Lemma date_cmp_opp a b : date_cmp b a = - date_cmp a b.
Proof.
  unfold date_cmp.
  rewrite (int_cmp_opp (year a)), (int_cmp_opp (month a)), (int_cmp_opp (day a)).
  by rewrite !then_cmp_opp.
Qed.

Lemma time_cmp_opp a b : time_cmp b a = - time_cmp a b.
Proof.
  unfold time_cmp.
  rewrite (int_cmp_opp (hour a)), (int_cmp_opp (minute a)),
    (int_cmp_opp (second a)), (int_cmp_opp (microsecond a)).
  by rewrite !then_cmp_opp.
Qed.

Lemma cmp_opp a b : cmp b a = - cmp a b.
Proof.
  unfold cmp. rewrite (date_cmp_opp (dt_date a)), (time_cmp_opp (dt_time a)).
  apply then_cmp_opp.
Qed.

Lemma cmp_range a b : -1 <= cmp a b <= 1.
Proof.
  unfold cmp, date_cmp, time_cmp.
  repeat apply then_cmp_range; apply int_cmp_range.
Qed.

Lemma datetime_eq_true a b : datetime_eq a b = true <-> a = b.
Proof. unfold datetime_eq. rewrite bool_decide_eq_true. apply cmp_eq0. Qed.

Lemma datetime_eq_refl a : datetime_eq a a = true.
Proof. by apply datetime_eq_true. Qed.

Lemma datetime_ne_refl a : datetime_ne a a = false.
Proof. unfold datetime_ne. by rewrite datetime_eq_refl. Qed.

Lemma datetime_lt_irrefl a : ~ datetime_lt a a.
Proof. unfold datetime_lt. rewrite cmp_refl. lia. Qed.

(** Whatever stands where the date should, [combine] refuses a missing
    time and refuses a method object. *)
Lemma combine_no_time d : combine d VNone = Raise TypeError.
Proof. by destruct d. Qed.

Lemma combine_method_time d self name :
  combine d (VMethod self name) = Raise TypeError.
Proof. by destruct d. Qed.

Lemma combine_method_date self name t :
  combine (VMethod self name) t = Raise TypeError.
Proof. done. Qed.

Lemma combine_no_date t : combine VNone t = Raise TypeError.
Proof. done. Qed.

End Comparison.

(** ** Start and end accessors *)

Section Accessors.

Context `{Collaborators}.

Implicit Types (self : OccurrenceBase) (d t : value).

(** The end date falls back on the start date, for both pairs. *)
Lemma unvaried_end_date_defaults self t :
  unvaried_end (assign_unvaried_end VNone t self)
  = combine (unvaried_start_date self) t.
Proof. done. Qed.

Lemma varied_end_date_defaults self t :
  varied_end (assign_varied_end VNone t self)
  = combine (varied_start_date self) t.
Proof. done. Qed.

(** C1.  The end accessors do not fall back on the start time: whatever
    the dates are, an occurrence whose unvaried (resp. varied) end time is
    absent makes [unvaried_end] (resp. [varied_end]) raise [TypeError],
    even when start date and start time are both there, while an absent
    end date is replaced by the start date. *)
Theorem end_time_is_not_defaulted self d sd st et :
  unvaried_end (assign_unvaried_end d VNone self) = Raise TypeError /\
  varied_end (assign_varied_end d VNone self) = Raise TypeError /\
  unvaried_end
    (assign_unvaried_end VNone VNone
       (assign_unvaried_start (VDate sd) (VTime st) self)) = Raise TypeError /\
  unvaried_end
    (assign_unvaried_end VNone (VTime et)
       (assign_unvaried_start (VDate sd) (VTime st) self))
  = Ok (Datetime sd et) /\
  varied_end
    (assign_varied_end VNone (VTime et)
       (assign_varied_start (VDate sd) (VTime st) self))
  = Ok (Datetime sd et).
Proof.
  repeat split; try done;
    unfold unvaried_end, varied_end, _get_unvaried_end, _get_varied_end;
    simpl; apply combine_no_time.
Qed.

(** C10.  Assigning a datetime through the varied start (resp. end)
    property and reading the property back raises [TypeError]: the setter
    stores the methods [value.date] and [value.time], not their results.
    The unvaried start property, whose setter calls them, gives the
    datetime back. *)
Theorem varied_setters_do_not_round_trip self (value : datetime_object) :
  varied_start (_set_varied_start value self) = Raise TypeError /\
  varied_end (_set_varied_end value self) = Raise TypeError /\
  varied_start_date (_set_varied_start value self) = VMethod value meth_date /\
  varied_start_time (_set_varied_start value self) = VMethod value meth_time /\
  unvaried_start (_set_unvaried_start value self) = Ok (contents value).
Proof.
  repeat split; try done.
  unfold unvaried_start, _get_unvaried_start, _set_unvaried_start. simpl.
  by destruct (contents value).
Qed.

(** C8.  [as_icalendar] reads the raw varied end date: with the end date
    absent and the end time present, [varied_end] answers with the start
    date while [as_icalendar] raises [TypeError]. *)
Theorem as_icalendar_end_date_not_defaulted self sd st et :
  let o := assign_varied_end VNone (VTime et)
             (assign_varied_start (VDate sd) (VTime st) self) in
  varied_start o = Ok (Datetime sd st) /\
  varied_end o = Ok (Datetime sd et) /\
  as_icalendar o = Raise TypeError.
Proof. done. Qed.

(** Where the varied end date is a date and the end time a time, the
    record carries the canonical start and end. *)
Lemma as_icalendar_full self s e :
  varied_start self = Ok s ->
  varied_end_date self = VDate (dt_date e) ->
  varied_end_time self = VTime (dt_time e) ->
  as_icalendar self
  = Ok {| summary := merged_title (unvaried_event self) (varied_event self);
          dtstart := s; dtend := e |}
  /\ varied_end self = Ok e.
Proof.
  unfold as_icalendar, start_date, start_time, end_date, end_time,
    _start_date, _start_time, _end_date, _end_time,
    varied_start, varied_end, _get_varied_start, _get_varied_end.
  intros -> Hd Ht. rewrite Hd, Ht. simpl. by destruct e.
Qed.

(** C6.  On an occurrence whose class carries no [_varied_event]
    attribute, setting the variation raises [AttributeError] and the
    occurrence is left exactly as it was. *)
Theorem set_varied_event_unsupported self (v : option EventVariation) :
  _varied_event self = None ->
  _set_varied_event v self
  = (self,
     Raise (AttributeError
       "You can't set an event variation for an event class with no 'varied_by' attribute.")).
Proof. unfold _set_varied_event. by intros ->. Qed.

(** With the attribute there, the variation is stored and nothing else
    moves. *)
Lemma set_varied_event_supported self old v :
  _varied_event self = Some old ->
  _set_varied_event v self = (assign__varied_event v self, Ok tt) /\
  varied_event (assign__varied_event v self) = v.
Proof. unfold _set_varied_event. by intros ->. Qed.

End Accessors.

(** ** Equality and ordering *)

Section Relations.

Context `{Collaborators}.

Implicit Types (self other a b : OccurrenceBase).

Local Open Scope Z_scope.

(** [__eq__] reads the generator and the four unvaried fields only. *)
Lemma eq_reads_unvaried_only a a' b b' :
  generator a = generator a' ->
  unvaried_start_date a = unvaried_start_date a' ->
  unvaried_start_time a = unvaried_start_time a' ->
  unvaried_end_date a = unvaried_end_date a' ->
  unvaried_end_time a = unvaried_end_time a' ->
  generator b = generator b' ->
  unvaried_start_date b = unvaried_start_date b' ->
  unvaried_start_time b = unvaried_start_time b' ->
  unvaried_end_date b = unvaried_end_date b' ->
  unvaried_end_time b = unvaried_end_time b' ->
  __eq__ a b = __eq__ a' b'.
Proof.
  unfold __eq__, original_start, original_end,
    _get_unvaried_start, _get_unvaried_end.
  by intros -> -> -> -> -> -> -> -> -> ->.
Qed.

(** C4.  [a == b] is true exactly when the two events are equal and the
    unvaried start and the unvaried end (end date defaulted to the start
    date) of both exist and agree; the varied fields, the flags and the
    variation of either side play no part. *)
Theorem eq_iff_same_event_and_unvaried a b :
  (__eq__ a b = Ok true <->
     event_eq (event (generator a)) (event (generator b)) = true /\
     exists s e : datetime,
       unvaried_start a = Ok s /\ unvaried_start b = Ok s /\
       unvaried_end a = Ok e /\ unvaried_end b = Ok e) /\
  (forall vsd vst ved vet c h v,
     __eq__ (assign__varied_event v (assign_flags c h
               (assign_varied_end ved vet (assign_varied_start vsd vst a)))) b
     = __eq__ a b /\
     __eq__ a (assign__varied_event v (assign_flags c h
               (assign_varied_end ved vet (assign_varied_start vsd vst b))))
     = __eq__ a b).
Proof.
  split.
  - unfold __eq__, original_start, original_end, unvaried_start, unvaried_end.
    destruct (event_eq _ _); [|split; [done | by intros [? _]]].
    destruct (_get_unvaried_start a) as [s1|] eqn:Hs1; simpl;
      [|split; [done | by intros (_ & ? & ? & ? & _)]].
    destruct (_get_unvaried_start b) as [s2|] eqn:Hs2; simpl;
      [|split; [done | by intros (_ & ? & ? & _ & ? & _)]].
    destruct (datetime_eq s1 s2) eqn:Hs.
    + apply datetime_eq_true in Hs as ->.
      destruct (_get_unvaried_end a) as [e1|] eqn:He1; simpl;
        [|split; [done | by intros (_ & ? & ? & _ & _ & ? & _)]].
      destruct (_get_unvaried_end b) as [e2|] eqn:He2; simpl;
        [|split; [done | by intros (_ & ? & ? & _ & _ & _ & ?)]].
      split.
      * intros [= He]. apply datetime_eq_true in He as ->. eauto 10.
      * intros (_ & s & e & _ & _ & [= ->] & [= ->]).
        by rewrite datetime_eq_refl.
    + split; [done|].
      intros (_ & s & e & [= ->] & [= ->] & _).
      by rewrite datetime_eq_refl in Hs.
  - intros. split; by apply eq_reads_unvaried_only.
Qed.

(** C5.  With both varied starts at hand, [__cmp__] answers [-1] when the
    first start is the earlier and [1] when it is the later; on equal
    starts it answers with the comparison of the varied ends.  So [a]
    sorts before [b] exactly when its start is earlier, or the starts are
    equal and its end is earlier. *)
Theorem cmp_by_start_then_end a b sa sb :
  varied_start a = Ok sa ->
  varied_start b = Ok sb ->
  (datetime_lt sa sb -> __cmp__ a b = Ok (-1)) /\
  (datetime_lt sb sa -> __cmp__ a b = Ok 1) /\
  (sa = sb ->
   __cmp__ a b =
     (let! ea := varied_end a in let! eb := varied_end b in Ok (cmp ea eb))) /\
  ((exists r, __cmp__ a b = Ok r /\ r < 0) <->
     datetime_lt sa sb \/
     (sa = sb /\ exists ea eb,
        varied_end a = Ok ea /\ varied_end b = Ok eb /\ datetime_lt ea eb)).
Proof.
  unfold __cmp__, start, end_, varied_start, varied_end, datetime_lt.
  intros -> ->. simpl.
  pose proof (cmp_range sa sb) as Hr. pose proof (cmp_opp sa sb) as Ho.
  pose proof (cmp_eq0 sa sb) as H0.
  repeat split.
  - intros. case_decide; [lia|]. f_equal. lia.
  - intros. case_decide; [lia|]. f_equal. lia.
  - intros ->. rewrite cmp_refl. by case_decide.
  - intros (r & Hc & Hlt). case_decide as Hz.
    + right. split; [by apply H0|].
      destruct (_get_varied_end a) as [ea|]; [|done].
      destruct (_get_varied_end b) as [eb|]; [|done].
      simpl in Hc. injection Hc as <-. eauto.
    + left. injection Hc as <-. done.
  - intros [Hlt | (-> & ea & eb & -> & -> & Hlt)].
    + case_decide; [lia|]. eauto.
    + rewrite cmp_refl. case_decide; [|done]. simpl. eauto.
Qed.

End Relations.

(** ** Reason *)

Section Reason.

Context `{Collaborators}.

Implicit Types (self : OccurrenceBase).

Local Open Scope Z_scope.

(** An attached variation decides alone. *)
Lemma reason_of_variation self v :
  varied_event self = Some v -> reason self = Ok (variation_reason v).
Proof. unfold reason. by intros ->. Qed.

Lemma reason_cancelled self :
  varied_event self = None -> cancelled self = true ->
  reason self = Ok "Cancelled".
Proof. unfold reason. by intros -> ->. Qed.

(** The start and end clauses look at the time of day only. *)
Lemma py_lt_times a b : py_lt (VTime a) (VTime b) = Ok (bool_decide (time_lt a b)).
Proof.
  unfold py_lt. simpl. f_equal.
  destruct (Z.ltb_spec (time_cmp a b) 0); symmetry;
    [apply bool_decide_eq_true_2 | apply bool_decide_eq_false_2];
    unfold time_lt; lia.
Qed.

Lemma py_gt_times a b : py_gt (VTime a) (VTime b) = Ok (bool_decide (time_lt b a)).
Proof.
  unfold py_gt. simpl. f_equal.
  destruct (Z.ltb_spec 0 (time_cmp a b)); symmetry;
    [apply bool_decide_eq_true_2 | apply bool_decide_eq_false_2];
    unfold time_lt; rewrite (time_cmp_opp a b); lia.
Qed.

Lemma py_ne_dates a b : py_ne (VDate a) (VDate b) = bool_decide (a <> b).
Proof.
  simpl. destruct (decide (a = b)) as [->|Hne].
  - rewrite bool_decide_eq_true_2 by (by apply date_cmp_eq0).
    by rewrite bool_decide_eq_false_2 by (intros Hx; by apply Hx).
  - rewrite bool_decide_eq_false_2 by (by rewrite date_cmp_eq0).
    by rewrite bool_decide_eq_true_2.
Qed.

(** C3.  [reason] goes by strict precedence: the reason of an attached
    variation, whatever the flags and the dates; else "Cancelled" for a
    cancelled occurrence; else the clauses "new date" (start dates
    differ), "starts earlier/later at HH:MM" (start times of day compared)
    and "ends earlier/later at HH:MM" (end times of day compared), in this
    order, joined with ", " - the empty string when there is none.  An
    occurrence without end times gets no end clause. *)
Theorem reason_precedence self :
  (forall v, varied_event self = Some v ->
     reason self = Ok (variation_reason v)) /\
  (varied_event self = None -> cancelled self = true ->
     reason self = Ok "Cancelled") /\
  (forall usd vsd ust vst uet vet,
     varied_event self = None -> cancelled self = false ->
     unvaried_start_date self = VDate usd -> varied_start_date self = VDate vsd ->
     unvaried_start_time self = VTime ust -> varied_start_time self = VTime vst ->
     unvaried_end_time self = VTime uet -> varied_end_time self = VTime vet ->
     reason self =
       Ok (String.concat ", "
             ((if decide (vsd = usd) then [] else ["new date"]) ++
              (if decide (time_lt vst ust)
               then ["starts earlier at " +:+ strftime_HM vst]
               else if decide (time_lt ust vst)
               then ["starts later at " +:+ strftime_HM vst]
               else []) ++
              (if decide (time_lt vet uet)
               then ["ends earlier at " +:+ strftime_HM vet]
               else if decide (time_lt uet vet)
               then ["ends later at " +:+ strftime_HM vet]
               else []))) /\
     (vsd = usd -> vst = ust -> vet = uet -> reason self = Ok "")) /\
  (forall usd vsd ust vst,
     varied_event self = None -> cancelled self = false ->
     unvaried_start_date self = VDate usd -> varied_start_date self = VDate vsd ->
     unvaried_start_time self = VTime ust -> varied_start_time self = VTime vst ->
     unvaried_end_time self = VNone -> varied_end_time self = VNone ->
     reason self =
       Ok (String.concat ", "
             ((if decide (vsd = usd) then [] else ["new date"]) ++
              (if decide (time_lt vst ust)
               then ["starts earlier at " +:+ strftime_HM vst]
               else if decide (time_lt ust vst)
               then ["starts later at " +:+ strftime_HM vst]
               else [])))).
Proof.
  split; [apply reason_of_variation|].
  split; [apply reason_cancelled|].
  split; cycle 1.
  { intros usd vsd ust vst Hv Hc Husd Hvsd Hust Hvst Huet Hvet.
    unfold reason.
    rewrite Hv, Hc, Husd, Hvsd, Hust, Hvst, Huet, Hvet.
    rewrite py_ne_dates, !py_lt_times, !py_gt_times. simpl.
    destruct (decide (vsd = usd)) as [->|Hd];
      [rewrite (bool_decide_eq_false_2 (usd <> usd)) by (intros Hx; by apply Hx)
      | rewrite (bool_decide_eq_true_2 (vsd <> usd)) by done];
      repeat case_bool_decide; repeat case_decide; done || tauto. }
  intros usd vsd ust vst uet vet Hv Hc Husd Hvsd Hust Hvst Huet Hvet.
  assert (reason self =
       Ok (String.concat ", "
             ((if decide (vsd = usd) then [] else ["new date"]) ++
              (if decide (time_lt vst ust)
               then ["starts earlier at " +:+ strftime_HM vst]
               else if decide (time_lt ust vst)
               then ["starts later at " +:+ strftime_HM vst]
               else []) ++
              (if decide (time_lt vet uet)
               then ["ends earlier at " +:+ strftime_HM vet]
               else if decide (time_lt uet vet)
               then ["ends later at " +:+ strftime_HM vet]
               else [])))) as Hr.
  { unfold reason.
    rewrite Hv, Hc, Husd, Hvsd, Hust, Hvst, Huet, Hvet.
    rewrite py_ne_dates, !py_lt_times, !py_gt_times. simpl.
    destruct (decide (vsd = usd)) as [->|Hd];
      [rewrite (bool_decide_eq_false_2 (usd <> usd)) by (intros Hx; by apply Hx)
      | rewrite (bool_decide_eq_true_2 (vsd <> usd)) by done];
      repeat case_bool_decide; repeat case_decide; done || tauto. }
  split; [exact Hr|].
  intros -> -> ->. rewrite Hr.
  rewrite decide_True by done.
  rewrite !decide_False; [done | | | |];
    unfold time_lt; rewrite (proj2 (time_cmp_eq0 _ _) eq_refl); lia.
Qed.

End Reason.

(** ** Construction *)

Section Construction.

Context `{Collaborators}.

Implicit Types (kwargs : gmap string value) (g : Generator).

(** Membership in a list written out in full. *)
Ltac in_list := repeat ((by left) || right).

Ltac list_cases Hk :=
  repeat (apply elem_of_cons in Hk as [Hk|Hk]; [simplify_eq/=|]);
  [..|by apply elem_of_nil in Hk].

Lemma list_to_set_mono (l1 l2 : list string) :
  (forall k, k ∈ l1 -> k ∈ l2) ->
  (list_to_set l1 : gset string) ⊆ list_to_set l2.
Proof.
  intros Hl k Hk. apply elem_of_list_to_set. apply Hl.
  by apply elem_of_list_to_set in Hk.
Qed.

(** One round of the loop writes [v_key] and nothing else: it keeps a
    value given for [v_key], else copies the one of [uv_key], else puts
    [None]. *)
Lemma backfill_step_lookup kwargs uv_key v_key k :
  backfill_step kwargs (uv_key, v_key) !! k
  = if decide (k = v_key)
    then Some (default (default VNone (kwargs !! uv_key)) (kwargs !! v_key))
    else kwargs !! k.
Proof.
  unfold backfill_step.
  destruct (kwargs !! v_key) as [x|] eqn:Hv;
    destruct (kwargs !! uv_key) as [y|] eqn:Huv;
    case_decide; simplify_map_eq; done.
Qed.

Lemma backfill_step_dom kwargs uv_key v_key (fields : gset string) :
  v_key ∈ fields -> dom kwargs ⊆ fields ->
  dom (backfill_step kwargs (uv_key, v_key)) ⊆ fields.
Proof.
  intros Hv Hdom. unfold backfill_step.
  destruct (kwargs !! v_key); [done|].
  destruct (kwargs !! uv_key); rewrite dom_insert;
    apply union_least; try done; by apply singleton_subseteq_l.
Qed.

Lemma field_names_varied uv_key v_key :
  (uv_key, v_key) ∈ key_pairs -> v_key ∈ (list_to_set field_names : gset string).
Proof.
  intros Hk. apply elem_of_list_to_set. unfold key_pairs, field_names in *.
  list_cases Hk; in_list.
Qed.

Lemma backfill_dom kwargs :
  dom kwargs ⊆ list_to_set field_names ->
  dom (backfill kwargs) ⊆ list_to_set field_names.
Proof.
  intros Hdom. unfold backfill, key_pairs. cbn [foldl].
  repeat (apply backfill_step_dom;
          [eapply field_names_varied; unfold key_pairs; in_list|]).
  done.
Qed.

(** The unvaried keywords come out of the loop as they went in. *)
Lemma backfill_lookup_unvaried kwargs k :
  k ∈ ["unvaried_start_date"; "unvaried_start_time";
       "unvaried_end_date"; "unvaried_end_time"] ->
  backfill kwargs !! k = kwargs !! k.
Proof.
  intros Hk. unfold backfill, key_pairs. cbn [foldl].
  rewrite !backfill_step_lookup.
  list_cases Hk; by repeat case_decide.
Qed.

(** Each varied keyword comes out given: its own value, else the value
    of its unvaried partner, else [None]. *)
Lemma backfill_lookup_varied kwargs uv_key v_key :
  (uv_key, v_key) ∈ key_pairs ->
  backfill kwargs !! v_key
  = Some (default (default VNone (kwargs !! uv_key)) (kwargs !! v_key)).
Proof.
  intros Hk. unfold backfill, key_pairs in *. cbn [foldl].
  rewrite !backfill_step_lookup.
  list_cases Hk; by repeat (case_decide; simplify_eq/=).
Qed.

(** What the constructor builds from keywords that name model fields. *)
Lemma init_fields varied_by g kwargs :
  dom kwargs ⊆ list_to_set field_names ->
  let uv name := default VNone (kwargs !! name) in
  let v uv_name name := default (uv uv_name) (kwargs !! name) in
  __init__ varied_by g kwargs
  = Ok {| generator := g;
          _varied_event := if varied_by then Some None else None;
          unvaried_start_date := uv "unvaried_start_date";
          unvaried_start_time := uv "unvaried_start_time";
          unvaried_end_date := uv "unvaried_end_date";
          unvaried_end_time := uv "unvaried_end_time";
          varied_start_date := v "unvaried_start_date" "varied_start_date";
          varied_start_time := v "unvaried_start_time" "varied_start_time";
          varied_end_date := v "unvaried_end_date" "varied_end_date";
          varied_end_time := v "unvaried_end_time" "varied_end_time";
          cancelled := false;
          hide_from_lists := false |}.
Proof.
  intros Hdom uv v. unfold __init__, Model__init__.
  rewrite bool_decide_eq_true_2 by by apply backfill_dom.
  rewrite !backfill_lookup_unvaried by in_list.
  rewrite (backfill_lookup_varied _ "unvaried_start_date" "varied_start_date"),
    (backfill_lookup_varied _ "unvaried_start_time" "varied_start_time"),
    (backfill_lookup_varied _ "unvaried_end_date" "varied_end_date"),
    (backfill_lookup_varied _ "unvaried_end_time" "varied_end_time")
    by (unfold key_pairs; in_list).
  done.
Qed.

(** Built from an unvaried start and a full or date-less unvaried end,
    with no varied keyword, the occurrence is not moved. *)
Lemma init_not_moved varied_by g kwargs sd st et o :
  dom kwargs ⊆ list_to_set ["unvaried_start_date"; "unvaried_start_time";
                            "unvaried_end_date"; "unvaried_end_time"] ->
  kwargs !! "unvaried_start_date" = Some (VDate sd) ->
  kwargs !! "unvaried_start_time" = Some (VTime st) ->
  kwargs !! "unvaried_end_time" = Some (VTime et) ->
  (forall x, kwargs !! "unvaried_end_date" = Some x -> x = VNone \/ exists d, x = VDate d) ->
  __init__ varied_by g kwargs = Ok o ->
  varied_start_date o = unvaried_start_date o /\
  varied_start_time o = unvaried_start_time o /\
  varied_end_date o = unvaried_end_date o /\
  varied_end_time o = unvaried_end_time o /\
  is_moved o = Ok false.
Proof.
  intros Hdom Hsd Hst Het Hed.
  assert (forall k, k ∈ ["varied_start_date"; "varied_start_time";
                         "varied_end_date"; "varied_end_time"] ->
                    kwargs !! k = None) as Hnone.
  { intros k Hk. apply not_elem_of_dom. intros Hin. apply Hdom in Hin.
    apply elem_of_list_to_set in Hin. list_cases Hk; list_cases Hin. }
  rewrite init_fields; cycle 1.
  { etrans; [exact Hdom|]. apply list_to_set_mono. unfold field_names.
    intros k Hk. list_cases Hk; in_list. }
  rewrite (Hnone "varied_start_date"), (Hnone "varied_start_time"),
    (Hnone "varied_end_date"), (Hnone "varied_end_time") by in_list.
  rewrite Hsd, Hst, Het. simpl.
  intros [= <-]. simpl. repeat split.
  unfold is_moved, _is_moved, unvaried_start, varied_start, unvaried_end,
    varied_end, _get_unvaried_start, _get_varied_start, _get_unvaried_end,
    _get_varied_end. simpl.
  rewrite datetime_ne_refl.
  destruct (kwargs !! "unvaried_end_date") as [x|] eqn:Hx; simpl.
  - destruct (Hed x eq_refl) as [->|[d ->]]; simpl; by rewrite datetime_ne_refl.
  - by rewrite datetime_ne_refl.
Qed.

(** C2.  Built from a start date and a start time alone, the occurrence
    has every varied field back-filled from its unvaried partner - the two
    end fields with [None] - and [is_moved] raises [TypeError] instead of
    answering false: the comparison of the ends stumbles on the absent end
    time. *)
Theorem init_backfills_but_is_moved_needs_end_time varied_by g sd st :
  exists o,
    __init__ varied_by g
      {[ "unvaried_start_date" := VDate sd; "unvaried_start_time" := VTime st ]}
    = Ok o /\
    varied_start_date o = VDate sd /\ varied_start_time o = VTime st /\
    varied_end_date o = VNone /\ varied_end_time o = VNone /\
    unvaried_end_date o = VNone /\ unvaried_end_time o = VNone /\
    is_moved o = Raise TypeError.
Proof.
  set (kwargs := ({[ "unvaried_start_date" := VDate sd;
                     "unvaried_start_time" := VTime st ]} : gmap string value)).
  assert (kwargs !! "unvaried_start_date" = Some (VDate sd)) as Hsd
    by (vm_compute; reflexivity).
  assert (kwargs !! "unvaried_start_time" = Some (VTime st)) as Hst
    by (vm_compute; reflexivity).
  assert (forall k, k ∈ ["unvaried_end_date"; "unvaried_end_time";
                         "varied_start_date"; "varied_start_time";
                         "varied_end_date"; "varied_end_time"] ->
                    kwargs !! k = None) as Hnone.
  { intros k Hk. list_cases Hk; vm_compute; reflexivity. }
  eexists. split.
  - apply init_fields. apply (bool_decide_unpack _). vm_compute. exact I.
  - simpl. rewrite Hsd, Hst.
    rewrite (Hnone "unvaried_end_date"), (Hnone "unvaried_end_time"),
      (Hnone "varied_start_date"), (Hnone "varied_start_time"),
      (Hnone "varied_end_date"), (Hnone "varied_end_time") by in_list.
    simpl. repeat split.
    unfold is_moved, _is_moved, unvaried_start, varied_start, unvaried_end,
      varied_end, _get_unvaried_start, _get_varied_start, _get_unvaried_end,
      _get_varied_end. simpl.
    by rewrite datetime_ne_refl.
Qed.

(** C7.  The constructor does not turn away a call that lacks the start
    date or the start time: with keywords that name model fields it always
    returns an occurrence.  A start date (resp. time) that is not given is
    stored as [None], and so is its varied partner unless that one is
    given; only reading the start then raises [TypeError]. *)
Theorem init_accepts_missing_start varied_by g kwargs :
  dom kwargs ⊆ list_to_set field_names ->
  exists o,
    __init__ varied_by g kwargs = Ok o /\
    (kwargs !! "unvaried_start_date" = None ->
       unvaried_start_date o = VNone /\
       unvaried_start o = Raise TypeError /\
       (kwargs !! "varied_start_date" = None ->
          varied_start_date o = VNone /\ varied_start o = Raise TypeError)) /\
    (kwargs !! "unvaried_start_time" = None ->
       unvaried_start_time o = VNone /\
       unvaried_start o = Raise TypeError /\
       (kwargs !! "varied_start_time" = None ->
          varied_start_time o = VNone /\ varied_start o = Raise TypeError)).
Proof.
  intros Hdom. eexists. split; [by apply init_fields|].
  unfold unvaried_start, varied_start, _get_unvaried_start, _get_varied_start.
  simpl. split.
  - intros ->. simpl. split; [done|]. split; [done|]. by intros ->.
  - intros ->. simpl. split; [done|]. split; [apply combine_no_time|].
    intros ->. simpl. split; [done | apply combine_no_time].
Qed.

End Construction.

(** ** Position in the day's list *)

Section GeneratedId.

Context `{Collaborators}.

Variable get_occurrences :
  Event -> datetime -> datetime -> result (list OccurrenceBase).

Implicit Types (self x y : OccurrenceBase) (l : list OccurrenceBase).

Local Open Scope Z_scope.

(** [index] answers with the first position that compares equal. *)
Lemma index_first l x (n : nat) y :
  l !! n = Some y ->
  __eq__ y x = Ok true ->
  (forall (i : nat) z, (i < n)%nat -> l !! i = Some z -> __eq__ z x = Ok false) ->
  index l x = Ok n.
Proof.
  revert n. induction l as [|z l IH]; intros n Hn Heq Hbefore; [done|].
  destruct n as [|n]; simpl in *.
  - injection Hn as ->. by rewrite Heq.
  - rewrite (Hbefore 0%nat z) by (lia || done). simpl.
    rewrite (IH n Hn Heq); [done|].
    intros i w Hi Hw. apply (Hbefore (S i) w); [lia | done].
Qed.

(** With no element comparing equal, the lookup fails. *)
Lemma index_no_match l x :
  (forall z, z ∈ l -> __eq__ z x = Ok false) ->
  index l x = Raise ValueError.
Proof.
  induction l as [|z l IH]; intros Hall; [done|]. simpl.
  rewrite (Hall z) by left. simpl.
  rewrite IH; [done|]. intros w Hw. apply Hall. by right.
Qed.

(** An index that comes back points at an element that compares equal,
    and nothing before it does. *)
Lemma index_sound l x (n : nat) :
  index l x = Ok n ->
  (exists y, l !! n = Some y /\ __eq__ y x = Ok true) /\
  (forall (i : nat) z, (i < n)%nat -> l !! i = Some z -> __eq__ z x = Ok false).
Proof.
  revert n. induction l as [|z l IH]; intros n; [done|]. simpl.
  destruct (__eq__ z x) as [[]|] eqn:Heq; simpl; [| |done].
  - intros [= <-]. split; [eauto|]. intros; lia.
  - destruct (index l x) as [m|] eqn:Hm; simpl; [|done].
    intros [= <-]. destruct (IH m eq_refl) as [Hy Hbefore].
    split; [done|]. intros [|i] w Hi Hw; simpl in Hw.
    + by injection Hw as <-.
    + apply (Hbefore i w); [lia | done].
Qed.

(** On a start without seconds, the range asked for is the calendar day
    of the start. *)
Lemma generated_id_day self d h m d' :
  start self = Ok (Datetime d (Time h m 0 0)) ->
  tomorrow d = Ok d' ->
  generated_id get_occurrences self
  = (let! l := get_occurrences (event (generator self))
                 (Datetime d (Time 0 0 0 0)) (Datetime d' (Time 0 0 0 0)) in
     index l self).
Proof.
  unfold generated_id, add_one_day, replace_hour_minute.
  intros -> Hd. simpl. by rewrite Hd.
Qed.

(** C9.  Take an occurrence whose start has no seconds, and the list its
    event gives for the calendar day of that start.  If the occurrence
    stands at position [n], compares equal to itself, and no earlier
    element compares equal to it, [generated_id] is [n]; if every element
    compares unequal, [ValueError] comes out. *)
Theorem generated_id_first_match self d h m d' l :
  start self = Ok (Datetime d (Time h m 0 0)) ->
  tomorrow d = Ok d' ->
  get_occurrences (event (generator self))
    (Datetime d (Time 0 0 0 0)) (Datetime d' (Time 0 0 0 0)) = Ok l ->
  (forall n : nat,
     l !! n = Some self ->
     __eq__ self self = Ok true ->
     (forall (i : nat) z, (i < n)%nat -> l !! i = Some z ->
        __eq__ z self = Ok false) ->
     generated_id get_occurrences self = Ok n) /\
  ((forall z, z ∈ l -> __eq__ z self = Ok false) ->
     generated_id get_occurrences self = Raise ValueError).
Proof.
  intros Hs Hd Hl. rewrite (generated_id_day _ _ _ _ _ Hs Hd), Hl. simpl.
  split.
  - intros n Hn Heq Hbefore. by apply (index_first l self n self).
  - apply index_no_match.
Qed.

End GeneratedId.

(** ** The theorems on the sample data *)

Section Worked.

Import Sample.

Local Open Scope Z_scope.

(** The retimed occurrence of the sample: no date change, start earlier,
    end later. *)
Lemma reason_precedence_witness :
  varied_event retimed = None /\ cancelled retimed = false /\
  reason retimed = Ok "starts earlier at 08:00, ends later at 10:30".
Proof.
  split; [reflexivity|]. split; [reflexivity|].
  exact (proj1 (proj1 (proj2 (proj2 (reason_precedence retimed)))
                  new_year new_year (hm 9 0) (hm 8 0) (hm 10 0) (hm 10 30)
                  eq_refl eq_refl eq_refl eq_refl eq_refl eq_refl eq_refl eq_refl)).
Defined.

(** The retimed occurrence starts at 08:00, the plain one at 09:00. *)
Lemma cmp_by_start_then_end_witness :
  varied_start retimed = Ok (Datetime new_year (hm 8 0)) /\
  varied_start (plain first_generator) = Ok (Datetime new_year (hm 9 0)) /\
  __cmp__ retimed (plain first_generator) = Ok (-1).
Proof.
  split; [reflexivity|]. split; [reflexivity|].
  apply (cmp_by_start_then_end retimed (plain first_generator)
           (Datetime new_year (hm 8 0)) (Datetime new_year (hm 9 0))
           eq_refl eq_refl).
  unfold datetime_lt. vm_compute. reflexivity.
Defined.

(** The sample class has no [_varied_event]. *)
Lemma set_varied_event_unsupported_witness :
  _varied_event (plain first_generator) = None /\
  _set_varied_event (Some "moved indoors") (plain first_generator)
  = (plain first_generator,
     Raise (AttributeError
       "You can't set an event variation for an event class with no 'varied_by' attribute.")).
Proof.
  split; [reflexivity|].
  apply (set_varied_event_unsupported (plain first_generator)
           (Some "moved indoors") eq_refl).
Defined.

(** C7, as the specification has it, fails on a call without any
    keyword: the constructor returns the blank occurrence. *)
Lemma init_without_start_returns :
  (∅ : gmap string value) !! "unvaried_start_date" = None /\
  (∅ : gmap string value) !! "unvaried_start_time" = None /\
  __init__ false first_generator ∅ = Ok (blank first_generator).
Proof. split; [reflexivity|]. split; [reflexivity|]. vm_compute. reflexivity. Qed.

Lemma init_accepts_missing_start_witness :
  dom (∅ : gmap string value) ⊆ list_to_set field_names /\
  exists o, __init__ false first_generator ∅ = Ok o /\
            unvaried_start_date o = VNone /\
            unvaried_start o = Raise TypeError.
Proof.
  assert (dom (∅ : gmap string value) ⊆ list_to_set field_names) as Hdom.
  { apply (bool_decide_unpack _). vm_compute. exact I. }
  split; [exact Hdom|].
  destruct (init_accepts_missing_start false first_generator ∅ Hdom)
    as (o & Ho & Hdate & _).
  exists o. split; [exact Ho|].
  destruct (Hdate eq_refl) as (Hd & Hs & _). split; [exact Hd | exact Hs].
Defined.

(** C9, as the specification has it, fails on the second of two equal
    occurrences: it stands at position 1 of the day's list and
    [generated_id] answers 0. *)
Lemma generated_id_second_of_twins :
  get_occurrences 7%nat (Datetime new_year (hm 0 0)) (Datetime (Date 2024 1 2) (hm 0 0))
  = Ok [plain first_generator; plain second_generator] /\
  [plain first_generator; plain second_generator] !! 1%nat
  = Some (plain second_generator) /\
  generated_id get_occurrences (plain second_generator) = Ok 0%nat /\
  generated_id get_occurrences (plain second_generator) <> Ok 1%nat.
Proof.
  split; [reflexivity|]. split; [reflexivity|].
  assert (generated_id get_occurrences (plain second_generator) = Ok 0%nat) as ->
    by (vm_compute; reflexivity).
  split; [reflexivity | discriminate].
Qed.

(** The first of the two is found where it stands; an occurrence of
    another event is not found at all. *)
Lemma generated_id_first_match_witness :
  generated_id get_occurrences (plain first_generator) = Ok 0%nat /\
  generated_id get_occurrences (plain other_generator) = Raise ValueError.
Proof.
  split.
  - apply (proj1 (generated_id_first_match get_occurrences
             (plain first_generator) new_year 9 0 (Date 2024 1 2)
             [plain first_generator; plain second_generator]
             eq_refl eq_refl eq_refl) 0%nat eq_refl eq_refl).
    intros i z Hi. lia.
  - apply (proj2 (generated_id_first_match get_occurrences
             (plain other_generator) new_year 9 0 (Date 2024 1 2)
             [plain first_generator; plain second_generator]
             eq_refl eq_refl eq_refl)).
    intros z Hz.
    apply elem_of_cons in Hz as [->|Hz]; [reflexivity|].
    apply elem_of_cons in Hz as [->|Hz]; [reflexivity|].
    by apply elem_of_nil in Hz.
Defined.

(** Two occurrences of one event with the same unvaried start and end
    are equal although one is retimed. *)
Example retimed_equals_plain :
  __eq__ retimed (plain second_generator) = Ok true.
Proof. vm_compute. reflexivity. Qed.

(** An occurrence without an end time: the start is fine, both ends
    raise, and so do [is_moved] and the comparison with itself. *)
Example no_end_time :
  let o := assign_varied_end VNone VNone
             (assign_unvaried_end VNone VNone (plain first_generator)) in
  unvaried_start o = Ok (Datetime new_year (hm 9 0)) /\
  unvaried_end o = Raise TypeError /\
  varied_end o = Raise TypeError /\
  is_moved o = Raise TypeError /\
  __eq__ o o = Raise TypeError /\
  reason o = Ok "".
Proof. vm_compute. repeat split. Qed.

End Worked.

(** * Further properties *)

(** ** What the accessors can raise, and when they answer *)

Section AccessorFacts.

Context `{Collaborators}.

Implicit Types (self other a b c : OccurrenceBase).

Local Open Scope Z_scope.

Lemma combine_raises d t e : combine d t = Raise e -> e = TypeError.
Proof. destruct d, t; simpl; congruence. Qed.

Lemma combine_ok d t s :
  combine d t = Ok s <-> d = VDate (dt_date s) /\ t = VTime (dt_time s).
Proof.
  destruct s as [sd st]. destruct d, t; simpl; split;
    try done; try (intros [? ?]; done).
  - by intros [= -> ->].
  - by intros [[= ->] [= ->]].
Qed.

Lemma datetime_eq_sym s1 s2 : datetime_eq s1 s2 = datetime_eq s2 s1.
Proof.
  destruct (datetime_eq s1 s2) eqn:H1; symmetry.
  - apply datetime_eq_true in H1 as ->. apply datetime_eq_refl.
  - destruct (datetime_eq s2 s1) eqn:H2; [|done].
    apply datetime_eq_true in H2 as ->. by rewrite datetime_eq_refl in H1.
Qed.

Lemma datetime_ne_true s1 s2 : datetime_ne s1 s2 = true <-> s1 <> s2.
Proof.
  unfold datetime_ne. rewrite negb_true_iff.
  destruct (datetime_eq s1 s2) eqn:Heq.
  - apply datetime_eq_true in Heq. split; [done | tauto].
  - split; [|done]. intros _ ->. by rewrite datetime_eq_refl in Heq.
Qed.

Lemma datetime_ne_false s1 s2 : datetime_ne s1 s2 = false <-> s1 = s2.
Proof.
  unfold datetime_ne. rewrite negb_false_iff. apply datetime_eq_true.
Qed.

(** When [==] answers true. *)
Lemma eq_true_iff a b :
  __eq__ a b = Ok true <->
    event_eq (event (generator a)) (event (generator b)) = true /\
    exists s e : datetime,
      unvaried_start a = Ok s /\ unvaried_start b = Ok s /\
      unvaried_end a = Ok e /\ unvaried_end b = Ok e.
Proof.
  unfold __eq__, original_start, original_end, unvaried_start, unvaried_end.
  destruct (event_eq _ _); [|split; [done | by intros [? _]]].
  destruct (_get_unvaried_start a) as [s1|]; simpl;
    [|split; [done | by intros (_ & ? & ? & ? & _)]].
  destruct (_get_unvaried_start b) as [s2|]; simpl;
    [|split; [done | by intros (_ & ? & ? & _ & ? & _)]].
  destruct (datetime_eq s1 s2) eqn:Hs.
  - apply datetime_eq_true in Hs as ->.
    destruct (_get_unvaried_end a) as [e1|]; simpl;
      [|split; [done | by intros (_ & ? & ? & _ & _ & ? & _)]].
    destruct (_get_unvaried_end b) as [e2|]; simpl;
      [|split; [done | by intros (_ & ? & ? & _ & _ & _ & ?)]].
    split.
    + intros [= He]. apply datetime_eq_true in He as ->. eauto 10.
    + intros (_ & s & e & _ & _ & [= ->] & [= ->]).
      by rewrite datetime_eq_refl.
  - split; [done|].
    intros (_ & s & e & [= ->] & [= ->] & _).
    by rewrite datetime_eq_refl in Hs.
Qed.

(** When [is_moved] answers false. *)
Lemma is_moved_ok_false self :
  is_moved self = Ok false <->
    exists s e : datetime,
      unvaried_start self = Ok s /\ varied_start self = Ok s /\
      unvaried_end self = Ok e /\ varied_end self = Ok e.
Proof.
  unfold is_moved, _is_moved.
  destruct (unvaried_start self) as [us|]; simpl;
    [|split; [done | by intros (? & ? & ? & _)]].
  destruct (varied_start self) as [vs|]; simpl;
    [|split; [done | by intros (? & ? & _ & ? & _)]].
  destruct (datetime_ne us vs) eqn:Hs.
  - apply datetime_ne_true in Hs. split; [done|].
    intros (s & e & [= ->] & [= ->] & _). done.
  - apply datetime_ne_false in Hs as ->.
    destruct (unvaried_end self) as [ue|]; simpl;
      [|split; [done | by intros (? & ? & _ & _ & ? & _)]].
    destruct (varied_end self) as [ve|]; simpl;
      [|split; [done | by intros (? & ? & _ & _ & _ & ?)]].
    split.
    + intros [= He]. apply datetime_ne_false in He as ->. eauto 10.
    + intros (s & e & _ & _ & [= ->] & [= ->]). by rewrite datetime_ne_refl.
Qed.

(** X1.  [is_moved] answers false exactly when the unvaried and the
    varied start exist and agree, and the unvaried and the varied end
    exist and agree; it answers true exactly when both starts exist and
    either they differ, or both ends exist and differ. *)
Theorem is_moved_answers self :
  (is_moved self = Ok false <->
     exists s e : datetime,
       unvaried_start self = Ok s /\ varied_start self = Ok s /\
       unvaried_end self = Ok e /\ varied_end self = Ok e) /\
  (is_moved self = Ok true <->
     exists us vs : datetime,
       unvaried_start self = Ok us /\ varied_start self = Ok vs /\
       (us <> vs \/
        exists ue ve : datetime,
          unvaried_end self = Ok ue /\ varied_end self = Ok ve /\ ue <> ve)).
Proof.
  split; [apply is_moved_ok_false|].
  unfold is_moved, _is_moved.
  destruct (unvaried_start self) as [us|]; simpl;
    [|split; [done | by intros (? & ? & ? & _)]].
  destruct (varied_start self) as [vs|]; simpl;
    [|split; [done | by intros (? & ? & _ & ? & _)]].
  destruct (datetime_ne us vs) eqn:Hs.
  - apply datetime_ne_true in Hs. split; [eauto 10 | done].
  - apply datetime_ne_false in Hs as ->. split.
    + destruct (unvaried_end self) as [ue|]; simpl; [|done].
      destruct (varied_end self) as [ve|]; simpl; [|done].
      intros [= He]. apply datetime_ne_true in He. eauto 10.
    + intros (us & vs' & [= <-] & [= <-] & [Hne | (ue & ve & -> & -> & Hne)]);
        [done|]. simpl. f_equal. by apply datetime_ne_true.
Qed.

(** X2.  As soon as the two starts exist and differ, [is_moved] answers
    true and the ends are not looked at: it answers even for an
    occurrence whose ends cannot be computed. *)
Theorem is_moved_by_start self us vs :
  unvaried_start self = Ok us ->
  varied_start self = Ok vs ->
  us <> vs ->
  is_moved self = Ok true /\
  (forall ued uet ved vet,
     is_moved (assign_varied_end ved vet (assign_unvaried_end ued uet self))
     = Ok true).
Proof.
  intros Hus Hvs Hne.
  assert (datetime_ne us vs = true) as Hd by by apply datetime_ne_true.
  split.
  - unfold is_moved, _is_moved. by rewrite Hus, Hvs; simpl; rewrite Hd.
  - intros. unfold is_moved, _is_moved.
    unfold unvaried_start, varied_start, _get_unvaried_start,
      _get_varied_start in *. simpl.
    by rewrite Hus, Hvs; simpl; rewrite Hd.
Qed.

(** X3.  [is_varied] answers false exactly for an occurrence that is not
    cancelled and whose starts and ends exist and agree pairwise; when
    [is_moved] raises, [is_varied] raises as well, cancelled or not. *)
Theorem is_varied_false_iff self :
  (is_varied self = Ok false <->
     cancelled self = false /\
     exists s e : datetime,
       unvaried_start self = Ok s /\ varied_start self = Ok s /\
       unvaried_end self = Ok e /\ varied_end self = Ok e) /\
  (forall e, is_moved self = Raise e -> is_varied self = Raise e).
Proof.
  split.
  - rewrite <- is_moved_ok_false. unfold is_varied, _is_varied.
    destruct (is_moved self) as [[]|]; simpl; split; try done;
      try (by intros [? ?]).
    + intros [= ->]. done.
    + intros [-> _]. done.
  - intros e He. unfold is_varied, _is_varied. by rewrite He.
Qed.

End AccessorFacts.

(** ** Equality and ordering as relations *)

Section RelationFacts.

Context `{Collaborators}.

Implicit Types (self other a b c : OccurrenceBase).

Local Open Scope Z_scope.

Lemma date_cmp_lt (a b : date) :
  date_cmp a b < 0 <->
    year a < year b \/
    (year a = year b /\ (month a < month b \/ (month a = month b /\ day a < day b))).
Proof.
  unfold date_cmp. by rewrite !then_cmp_lt, !int_cmp_lt, !int_cmp_eq0.
Qed.

Lemma time_cmp_lt (a b : time) :
  time_cmp a b < 0 <->
    hour a < hour b \/
    (hour a = hour b /\
     (minute a < minute b \/
      (minute a = minute b /\
       (second a < second b \/
        (second a = second b /\ microsecond a < microsecond b))))).
Proof.
  unfold time_cmp. by rewrite !then_cmp_lt, !int_cmp_lt, !int_cmp_eq0.
Qed.

Lemma date_cmp_trans (a b c : date) :
  date_cmp a b < 0 -> date_cmp b c < 0 -> date_cmp a c < 0.
Proof. rewrite !date_cmp_lt. lia. Qed.

Lemma time_cmp_trans (a b c : time) :
  time_cmp a b < 0 -> time_cmp b c < 0 -> time_cmp a c < 0.
Proof. rewrite !time_cmp_lt. lia. Qed.

Lemma datetime_lt_trans x y z :
  datetime_lt x y -> datetime_lt y z -> datetime_lt x z.
Proof.
  unfold datetime_lt, cmp. rewrite !then_cmp_lt, !date_cmp_eq0.
  intros [Hxy | [Hxy Hxy']] [Hyz | [Hyz Hyz']].
  - left. by eapply date_cmp_trans.
  - left. by rewrite <- Hyz.
  - left. by rewrite Hxy.
  - right. split; [congruence|]. by eapply time_cmp_trans.
Qed.

(** How [__cmp__] answers once the two starts are known. *)
Lemma cmp_with_starts a b sa sb :
  varied_start a = Ok sa -> varied_start b = Ok sb ->
  __cmp__ a b =
    if decide (sa = sb)
    then let! ea := varied_end a in let! eb := varied_end b in Ok (cmp ea eb)
    else Ok (cmp sa sb).
Proof.
  unfold __cmp__, start, end_, varied_start, varied_end.
  intros -> ->. simpl.
  destruct (decide (sa = sb)) as [->|Hne].
  - rewrite cmp_refl. by case_decide.
  - case_decide as Hz; [|done]. by apply cmp_eq0 in Hz.
Qed.

Lemma cmp_needs_starts a b r :
  __cmp__ a b = Ok r ->
  exists sa sb, varied_start a = Ok sa /\ varied_start b = Ok sb.
Proof.
  unfold __cmp__, start, varied_start.
  destruct (_get_varied_start a) as [sa|]; [|done].
  destruct (_get_varied_start b) as [sb|]; [|done]. eauto.
Qed.

(** X4.  [==] is symmetric, outcome for outcome, as soon as the events'
    own equality is. *)
Theorem eq_symmetric a b :
  event_eq (event (generator a)) (event (generator b))
  = event_eq (event (generator b)) (event (generator a)) ->
  __eq__ a b = __eq__ b a.
Proof.
  unfold __eq__, original_start, original_end,
    _get_unvaried_start, _get_unvaried_end.
  intros <-. destruct (event_eq _ _); [|done].
  destruct (combine (unvaried_start_date a) _) as [s1|e1] eqn:Ha;
    destruct (combine (unvaried_start_date b) _) as [s2|e2] eqn:Hb; simpl;
    try (apply combine_raises in Ha as ->);
    try (apply combine_raises in Hb as ->); try done.
  rewrite (datetime_eq_sym s2 s1). destruct (datetime_eq s1 s2); [|done].
  destruct (combine (py_or (unvaried_end_date a) _) _) as [x1|e1] eqn:Hea;
    destruct (combine (py_or (unvaried_end_date b) _) _) as [x2|e2] eqn:Heb;
    simpl;
    try (apply combine_raises in Hea as ->);
    try (apply combine_raises in Heb as ->); try done.
  by rewrite datetime_eq_sym.
Qed.

(** X5.  [==] is transitive where the events' own equality is. *)
Theorem eq_transitive a b c :
  (event_eq (event (generator a)) (event (generator b)) = true ->
   event_eq (event (generator b)) (event (generator c)) = true ->
   event_eq (event (generator a)) (event (generator c)) = true) ->
  __eq__ a b = Ok true -> __eq__ b c = Ok true -> __eq__ a c = Ok true.
Proof.
  intros Htrans. rewrite !eq_true_iff.
  intros (Hab & s & e & Has & Hbs & Hae & Hbe)
         (Hbc & s' & e' & Hbs' & Hcs & Hbe' & Hce).
  split; [by apply Htrans|].
  exists s, e. repeat split; congruence.
Qed.

(** X6.  An occurrence equals itself exactly when its event equals itself
    and its unvaried start and end can both be computed. *)
Theorem eq_reflexive_iff a :
  __eq__ a a = Ok true <->
    event_eq (event (generator a)) (event (generator a)) = true /\
    (exists s, unvaried_start a = Ok s) /\ (exists e, unvaried_end a = Ok e).
Proof.
  rewrite eq_true_iff. split.
  - intros (He & s & e & Hs & _ & Hend & _). eauto.
  - intros (He & [s Hs] & [e Hend]). eauto 10.
Qed.

(** X7.  Swapping the arguments of [__cmp__] negates the answer, and
    raises when the original raises. *)
Theorem cmp_antisymmetric a b :
  __cmp__ b a = let! r := __cmp__ a b in Ok (- r).
Proof.
  unfold __cmp__, start, end_, _get_varied_start, _get_varied_end.
  destruct (combine (varied_start_date a) _) as [sa|e1] eqn:Ha;
    destruct (combine (varied_start_date b) _) as [sb|e2] eqn:Hb; simpl;
    try (apply combine_raises in Ha as ->);
    try (apply combine_raises in Hb as ->); try done.
  cbv zeta. rewrite (cmp_opp sa sb).
  destruct (decide (cmp sa sb = 0)) as [Hz|Hz].
  - destruct (decide (- cmp sa sb = 0)); [|lia].
    destruct (combine (py_or (varied_end_date a) _) _) as [ea|e1] eqn:Hea;
      destruct (combine (py_or (varied_end_date b) _) _) as [eb|e2] eqn:Heb;
      simpl;
      try (apply combine_raises in Hea as ->);
      try (apply combine_raises in Heb as ->); try done.
    by rewrite (cmp_opp ea eb).
  - destruct (decide (- cmp sa sb = 0)); [lia|done].
Qed.

(** X8.  Sorting before is transitive: if [a] sorts before [b] and [b]
    before [c], then [__cmp__ a c] answers, with a negative number. *)
Theorem cmp_transitive a b c r1 r2 :
  __cmp__ a b = Ok r1 -> r1 < 0 ->
  __cmp__ b c = Ok r2 -> r2 < 0 ->
  exists r, __cmp__ a c = Ok r /\ r < 0.
Proof.
  intros Hab H1 Hbc H2.
  destruct (cmp_needs_starts _ _ _ Hab) as (sa & sb & Hsa & Hsb).
  destruct (cmp_needs_starts _ _ _ Hbc) as (sb' & sc & Hsb' & Hsc).
  assert (sb' = sb) as -> by congruence.
  rewrite (cmp_with_starts a b sa sb Hsa Hsb) in Hab.
  rewrite (cmp_with_starts b c sb sc Hsb Hsc) in Hbc.
  destruct (decide (sa = sb)) as [Hab'|Hab'];
    destruct (decide (sb = sc)) as [Hbc'|Hbc'];
    rewrite (cmp_with_starts a c sa sc Hsa Hsc);
    destruct (decide (sa = sc)) as [Hac|Hac]; try congruence.
  - destruct (varied_end a) as [ea|]; [|done].
    destruct (varied_end b) as [eb|]; [|done].
    destruct (varied_end c) as [ec|]; [|done].
    simpl in *. injection Hab as <-. injection Hbc as <-.
    eexists. split; [done|]. by apply (datetime_lt_trans ea eb ec).
  - subst sb. injection Hbc as <-. eauto.
  - subst sc. injection Hab as <-. eauto.
  - subst sc. exfalso. injection Hab as <-. injection Hbc as <-.
    apply (datetime_lt_irrefl sa). by apply (datetime_lt_trans sa sb sa).
  - injection Hab as <-. injection Hbc as <-.
    eexists. split; [done|]. by apply (datetime_lt_trans sa sb sc).
Qed.

(** X9.  [__cmp__] answers with [-1], [0] or [1] only, and with [0]
    exactly when the two varied starts exist and agree and the two varied
    ends exist and agree. *)
Theorem cmp_three_way a b :
  (forall r, __cmp__ a b = Ok r -> r = -1 \/ r = 0 \/ r = 1) /\
  (__cmp__ a b = Ok 0 <->
     exists s e : datetime,
       varied_start a = Ok s /\ varied_start b = Ok s /\
       varied_end a = Ok e /\ varied_end b = Ok e).
Proof.
  split.
  - intros r Hr.
    destruct (cmp_needs_starts _ _ _ Hr) as (sa & sb & Hsa & Hsb).
    rewrite (cmp_with_starts a b sa sb Hsa Hsb) in Hr.
    case_decide.
    + destruct (varied_end a) as [ea|]; [|done].
      destruct (varied_end b) as [eb|]; [|done].
      simpl in Hr. injection Hr as <-. pose proof (cmp_range ea eb). lia.
    + injection Hr as <-. pose proof (cmp_range sa sb). lia.
  - split.
    + intros Hr.
      destruct (cmp_needs_starts _ _ _ Hr) as (sa & sb & Hsa & Hsb).
      rewrite (cmp_with_starts a b sa sb Hsa Hsb) in Hr.
      case_decide as Hs.
      * subst sb.
        destruct (varied_end a) as [ea|]; [|done].
        destruct (varied_end b) as [eb|]; [|done].
        simpl in Hr. injection Hr as Hr. apply cmp_eq0 in Hr as ->. eauto 10.
      * injection Hr as Hr. by apply cmp_eq0 in Hr.
    + intros (s & e & Hsa & Hsb & Hea & Heb).
      rewrite (cmp_with_starts a b s s Hsa Hsb), decide_True by done.
      rewrite Hea, Heb. simpl. by rewrite cmp_refl.
Qed.

(** X10.  [__cmp__] reads the four varied fields and nothing else:
    neither the generator, nor the unvaried fields, nor the flags, nor
    the variation change the order of two occurrences. *)
Theorem cmp_reads_varied_only a a' b b' :
  varied_start_date a = varied_start_date a' ->
  varied_start_time a = varied_start_time a' ->
  varied_end_date a = varied_end_date a' ->
  varied_end_time a = varied_end_time a' ->
  varied_start_date b = varied_start_date b' ->
  varied_start_time b = varied_start_time b' ->
  varied_end_date b = varied_end_date b' ->
  varied_end_time b = varied_end_time b' ->
  __cmp__ a b = __cmp__ a' b'.
Proof.
  unfold __cmp__, start, end_, _get_varied_start, _get_varied_end.
  by intros -> -> -> -> -> -> -> ->.
Qed.

End RelationFacts.

(** ** Setters, reason and export *)

Section SetterFacts.

Context `{Collaborators}.

Implicit Types (self other : OccurrenceBase).

Local Open Scope Z_scope.

Lemma time_lt_irrefl (t : time) : ~ time_lt t t.
Proof. unfold time_lt. rewrite (proj2 (time_cmp_eq0 t t) eq_refl). lia. Qed.

(** X11.  After an assignment through the unvaried end property the
    occurrence has no unvaried end any more: reading it raises
    [TypeError], so the occurrence compares equal to nothing, on either
    side, and [is_moved] cannot answer false. *)
Theorem unvaried_end_setter_breaks_equality self (value : datetime_object) other :
  unvaried_end (_set_unvaried_end value self) = Raise TypeError /\
  __eq__ (_set_unvaried_end value self) other <> Ok true /\
  __eq__ other (_set_unvaried_end value self) <> Ok true /\
  is_moved (_set_unvaried_end value self) <> Ok false.
Proof.
  assert (unvaried_end (_set_unvaried_end value self) = Raise TypeError)
    as Hend by done.
  split; [done|]. rewrite !eq_true_iff, is_moved_ok_false.
  repeat split.
  - intros (_ & s & e & _ & _ & He & _). by rewrite Hend in He.
  - intros (_ & s & e & _ & _ & _ & He). by rewrite Hend in He.
  - intros (s & e & _ & _ & He & _). by rewrite Hend in He.
Qed.

(** X12.  Assigning through the unvaried start property changes the two
    unvaried start fields only.  An unvaried end that borrows its date
    from the start moves with it; one with a date of its own stays, and
    so do the varied start and end. *)
Theorem set_unvaried_start_and_the_end self (value : datetime_object) :
  unvaried_start (_set_unvaried_start value self) = Ok (contents value) /\
  varied_start (_set_unvaried_start value self) = varied_start self /\
  varied_end (_set_unvaried_start value self) = varied_end self /\
  (forall t,
     unvaried_end_date self = VNone -> unvaried_end_time self = VTime t ->
     unvaried_end (_set_unvaried_start value self)
     = Ok (Datetime (dt_date (contents value)) t)) /\
  (forall d,
     unvaried_end_date self = VDate d ->
     unvaried_end (_set_unvaried_start value self) = unvaried_end self).
Proof.
  unfold unvaried_start, unvaried_end, _get_unvaried_start, _get_unvaried_end,
    _set_unvaried_start.
  split; [simpl; by destruct (contents value)|].
  split; [done|]. split; [done|]. split.
  - intros t Hd Ht. simpl. by rewrite Hd, Ht.
  - intros d Hd. simpl. by rewrite Hd.
Qed.

(** X13.  [reason] never mentions the end date: an occurrence that is
    neither cancelled nor varied by an event, and whose only change is
    its end date, is moved and has the empty reason. *)
Theorem reason_silent_on_end_date self sd st ed et ed' :
  varied_event self = None -> cancelled self = false ->
  unvaried_start_date self = VDate sd -> unvaried_start_time self = VTime st ->
  unvaried_end_date self = VDate ed -> unvaried_end_time self = VTime et ->
  varied_start_date self = VDate sd -> varied_start_time self = VTime st ->
  varied_end_date self = VDate ed' -> varied_end_time self = VTime et ->
  ed' <> ed ->
  is_moved self = Ok true /\ reason self = Ok "".
Proof.
  intros Hv Hc Husd Hust Hued Huet Hvsd Hvst Hved Hvet Hne. split.
  - unfold is_moved, _is_moved, unvaried_start, varied_start, unvaried_end,
      varied_end, _get_unvaried_start, _get_varied_start, _get_unvaried_end,
      _get_varied_end.
    rewrite Husd, Hust, Hued, Huet, Hvsd, Hvst, Hved, Hvet. simpl.
    rewrite datetime_ne_refl. f_equal. apply datetime_ne_true. congruence.
  - unfold reason.
    rewrite Hv, Hc, Husd, Hust, Huet, Hvsd, Hvst, Hvet.
    rewrite py_ne_dates, !py_lt_times, !py_gt_times. simpl.
    rewrite (bool_decide_eq_false_2 (sd <> sd)) by (intros Hx; by apply Hx).
    rewrite !bool_decide_eq_false_2 by apply time_lt_irrefl.
    done.
Qed.

(** X14.  With an end time on one side only - varied but not unvaried,
    or the reverse - [reason] raises [TypeError] instead of answering. *)
Theorem reason_one_sided_end_time self ust vst t :
  varied_event self = None -> cancelled self = false ->
  unvaried_start_time self = VTime ust -> varied_start_time self = VTime vst ->
  (unvaried_end_time self = VNone -> varied_end_time self = VTime t ->
     reason self = Raise TypeError) /\
  (unvaried_end_time self = VTime t -> varied_end_time self = VNone ->
     reason self = Raise TypeError).
Proof.
  intros Hv Hc Hust Hvst.
  split; intros Hu Hve; unfold reason;
    rewrite Hv, Hc, Hust, Hvst, Hu, Hve;
    rewrite !py_lt_times, !py_gt_times; simpl;
    repeat case_bool_decide; done.
Qed.

(** X15.  On a class that carries the attribute, attaching a variation
    succeeds; from then on [reason] is the variation's reason, whatever
    the flags and the dates, while [is_moved], [==] and the order are as
    before. *)
Theorem attached_variation_gives_reason self old v other :
  _varied_event self = Some old ->
  let self' := (_set_varied_event (Some v) self).1 in
  (_set_varied_event (Some v) self).2 = Ok tt /\
  varied_event self' = Some v /\
  reason self' = Ok (variation_reason v) /\
  is_moved self' = is_moved self /\
  __eq__ self' other = __eq__ self other /\
  __cmp__ self' other = __cmp__ self other.
Proof.
  intros Hslot. unfold _set_varied_event. rewrite Hslot. simpl.
  repeat split.
Qed.

(** X16.  [as_icalendar] answers exactly when the four varied fields hold
    two dates and two times; its record then carries the merged title,
    the canonical start and the canonical end.  It raises nothing but
    [TypeError]. *)
Theorem as_icalendar_answers self :
  (forall r,
     as_icalendar self = Ok r <->
       summary r = merged_title (unvaried_event self) (varied_event self) /\
       varied_start_date self = VDate (dt_date (dtstart r)) /\
       varied_start_time self = VTime (dt_time (dtstart r)) /\
       varied_end_date self = VDate (dt_date (dtend r)) /\
       varied_end_time self = VTime (dt_time (dtend r))) /\
  (forall r,
     as_icalendar self = Ok r ->
     varied_start self = Ok (dtstart r) /\ varied_end self = Ok (dtend r)) /\
  (forall e, as_icalendar self = Raise e -> e = TypeError).
Proof.
  unfold as_icalendar, start_date, start_time, end_date, end_time,
    _start_date, _start_time, _end_date, _end_time,
    varied_start, varied_end, _get_varied_start, _get_varied_end.
  split; [|split].
  - intros [title s e]. simpl.
    destruct (combine (varied_start_date self) _) as [s'|] eqn:Hs; simpl.
    + destruct (combine (varied_end_date self) _) as [e'|] eqn:He; simpl.
      * apply combine_ok in Hs as [Hsd Hst]. apply combine_ok in He as [Hed Het].
        rewrite Hsd, Hst, Hed, Het. split.
        -- by intros [= <- <- <-].
        -- intros (-> & [= Ha] & [= Hb] & [= Hc] & [= Hd]).
           destruct s, s', e, e'; simpl in *. by subst.
      * split; [done|]. intros (_ & _ & _ & Hed & Het).
        rewrite Hed, Het in He. done.
    + split; [done|]. intros (_ & Hsd & Hst & _). rewrite Hsd, Hst in Hs. done.
  - intros r.
    destruct (combine (varied_start_date self) _) as [s'|] eqn:Hs; simpl; [|done].
    destruct (combine (varied_end_date self) _) as [e'|] eqn:He; simpl; [|done].
    intros [= <-]. simpl. split; [done|].
    apply combine_ok in He as [Hed Het]. rewrite Hed, Het. simpl.
    by destruct e'.
  - intros e.
    destruct (combine (varied_start_date self) _) as [s'|] eqn:Hs; simpl.
    + destruct (combine (varied_end_date self) _) as [e'|] eqn:He; simpl; [done|].
      intros [= <-]. by apply combine_raises in He.
    + intros [= <-]. by apply combine_raises in Hs.
Qed.

End SetterFacts.

(** ** What [generated_id] can answer *)

Section GeneratedIdFacts.

Context `{Collaborators}.

Variable get_occurrences :
  Event -> datetime -> datetime -> result (list OccurrenceBase).

Implicit Types (self : OccurrenceBase).

Local Open Scope Z_scope.

(** The range [generated_id] asks the event for: from 00:00 of the day of
    the start, seconds and microseconds kept, to the same time a day
    later. *)
Lemma generated_id_unfold self s :
  start self = Ok s ->
  generated_id get_occurrences self =
    (let from := Datetime (dt_date s)
                   (Time 0 0 (second (dt_time s)) (microsecond (dt_time s))) in
     let! d' := tomorrow (dt_date s) in
     let! l := get_occurrences (event (generator self)) from
                 (Datetime d' (dt_time from)) in
     index l self).
Proof.
  unfold generated_id, add_one_day, replace_hour_minute. intros ->. simpl.
  by destruct (tomorrow (dt_date s)).
Qed.

(** X17.  An index that [generated_id] answers with is never wrong: it
    points into the list the event gave for the day of the start, at an
    element that compares equal to the occurrence, and no earlier element
    does. *)
Theorem generated_id_sound self (n : nat) :
  generated_id get_occurrences self = Ok n ->
  exists s d' l y,
    start self = Ok s /\
    tomorrow (dt_date s) = Ok d' /\
    get_occurrences (event (generator self))
      (Datetime (dt_date s)
         (Time 0 0 (second (dt_time s)) (microsecond (dt_time s))))
      (Datetime d'
         (Time 0 0 (second (dt_time s)) (microsecond (dt_time s)))) = Ok l /\
    l !! n = Some y /\ (n < length l)%nat /\
    __eq__ y self = Ok true /\
    (forall (i : nat) z, (i < n)%nat -> l !! i = Some z ->
       __eq__ z self = Ok false).
Proof.
  destruct (start self) as [s|] eqn:Hs; [|by unfold generated_id; rewrite Hs].
  rewrite (generated_id_unfold self s Hs). simpl.
  destruct (tomorrow (dt_date s)) as [d'|] eqn:Hd; simpl; [|done].
  destruct (get_occurrences _ _ _) as [l|] eqn:Hl; simpl; [|done].
  intros Hidx. destruct (index_sound l self n Hidx) as [(y & Hy & Heq) Hbefore].
  exists s, d', l, y. repeat split; try done.
  by apply lookup_lt_Some in Hy.
Qed.

(** X18.  How [generated_id] fails: with [TypeError] when the start
    cannot be computed, without asking the event; with [OverflowError]
    for a start on 9999-12-31; with the event's own exception when the
    listing raises; with [ValueError] when the listing is empty. *)
Theorem generated_id_failures self :
  (forall e, start self = Raise e ->
     e = TypeError /\ generated_id get_occurrences self = Raise TypeError) /\
  (forall s, start self = Ok s -> dt_date s = Date 9999 12 31 ->
     generated_id get_occurrences self = Raise OverflowError) /\
  (forall s d' e, start self = Ok s -> tomorrow (dt_date s) = Ok d' ->
     get_occurrences (event (generator self))
       (Datetime (dt_date s)
          (Time 0 0 (second (dt_time s)) (microsecond (dt_time s))))
       (Datetime d'
          (Time 0 0 (second (dt_time s)) (microsecond (dt_time s)))) = Raise e ->
     generated_id get_occurrences self = Raise e) /\
  (forall s d', start self = Ok s -> tomorrow (dt_date s) = Ok d' ->
     get_occurrences (event (generator self))
       (Datetime (dt_date s)
          (Time 0 0 (second (dt_time s)) (microsecond (dt_time s))))
       (Datetime d'
          (Time 0 0 (second (dt_time s)) (microsecond (dt_time s)))) = Ok [] ->
     generated_id get_occurrences self = Raise ValueError).
Proof.
  split; [|split; [|split]].
  - intros e He.
    assert (e = TypeError) as ->
      by (unfold start, _get_varied_start in He; by eapply combine_raises).
    split; [done|]. unfold generated_id. by rewrite He.
  - intros s Hs Hd. rewrite (generated_id_unfold self s Hs), Hd. done.
  - intros s d' e Hs Hd Hl.
    rewrite (generated_id_unfold self s Hs). simpl. by rewrite Hd; simpl; rewrite Hl.
  - intros s d' Hs Hd Hl.
    rewrite (generated_id_unfold self s Hs). simpl. by rewrite Hd; simpl; rewrite Hl.
Qed.

End GeneratedIdFacts.

(** ** The back-fill loop and the constructor *)

Section ConstructionFacts.

Context `{Collaborators}.

Implicit Types (kwargs : gmap string value) (g : Generator).

Local Open Scope Z_scope.

(** What the loop leaves under any key. *)
Lemma backfill_lookup kwargs k :
  backfill kwargs !! k =
    if decide (k = "varied_start_date")
    then Some (default (default VNone (kwargs !! "unvaried_start_date")) (kwargs !! k))
    else if decide (k = "varied_start_time")
    then Some (default (default VNone (kwargs !! "unvaried_start_time")) (kwargs !! k))
    else if decide (k = "varied_end_date")
    then Some (default (default VNone (kwargs !! "unvaried_end_date")) (kwargs !! k))
    else if decide (k = "varied_end_time")
    then Some (default (default VNone (kwargs !! "unvaried_end_time")) (kwargs !! k))
    else kwargs !! k.
Proof.
  destruct (decide (k = "varied_start_date")) as [->|H1].
  { apply (backfill_lookup_varied _ "unvaried_start_date").
    unfold key_pairs. repeat ((by left) || right). }
  destruct (decide (k = "varied_start_time")) as [->|H2].
  { apply (backfill_lookup_varied _ "unvaried_start_time").
    unfold key_pairs. repeat ((by left) || right). }
  destruct (decide (k = "varied_end_date")) as [->|H3].
  { apply (backfill_lookup_varied _ "unvaried_end_date").
    unfold key_pairs. repeat ((by left) || right). }
  destruct (decide (k = "varied_end_time")) as [->|H4].
  { apply (backfill_lookup_varied _ "unvaried_end_time").
    unfold key_pairs. repeat ((by left) || right). }
  unfold backfill, key_pairs. cbn [foldl].
  rewrite !backfill_step_lookup.
  by rewrite !decide_False by done.
Qed.

(** X19.  The loop never overwrites a keyword that was given, and the
    keys it leaves are those given plus the four varied ones. *)
Theorem backfill_keeps_and_adds kwargs :
  (forall k x, kwargs !! k = Some x -> backfill kwargs !! k = Some x) /\
  dom (backfill kwargs)
  = dom kwargs ∪ list_to_set ["varied_start_date"; "varied_start_time";
                              "varied_end_date"; "varied_end_time"].
Proof.
  split.
  - intros k x Hk. rewrite backfill_lookup, Hk. simpl.
    by repeat case_decide.
  - apply set_eq. intros k.
    rewrite elem_of_union, !elem_of_dom, elem_of_list_to_set, backfill_lookup.
    rewrite !elem_of_cons, elem_of_nil.
    repeat case_decide; subst; split; intros Hk; eauto 10.
    by destruct Hk as [Hk | [Hk | [Hk | [Hk | [Hk | []]]]]].
Qed.

(** X20.  Running the loop a second time changes nothing. *)
Theorem backfill_idempotent kwargs :
  backfill (backfill kwargs) = backfill kwargs.
Proof.
  apply map_eq. intros k.
  rewrite (backfill_lookup (backfill kwargs) k).
  rewrite (backfill_lookup_unvaried kwargs "unvaried_start_date"),
    (backfill_lookup_unvaried kwargs "unvaried_start_time"),
    (backfill_lookup_unvaried kwargs "unvaried_end_date"),
    (backfill_lookup_unvaried kwargs "unvaried_end_time")
    by repeat ((by left) || right).
  rewrite (backfill_lookup kwargs k).
  by repeat case_decide.
Qed.

(** X21.  A varied keyword that is given wins over the back-fill, also
    when the value given is [None]; the unvaried fields are those given,
    or [None]; the flags start false. *)
Theorem init_keeps_explicit_varied varied_by g kwargs o :
  dom kwargs ⊆ list_to_set field_names ->
  __init__ varied_by g kwargs = Ok o ->
  (forall x, kwargs !! "varied_start_date" = Some x -> varied_start_date o = x) /\
  (forall x, kwargs !! "varied_start_time" = Some x -> varied_start_time o = x) /\
  (forall x, kwargs !! "varied_end_date" = Some x -> varied_end_date o = x) /\
  (forall x, kwargs !! "varied_end_time" = Some x -> varied_end_time o = x) /\
  unvaried_start_date o = default VNone (kwargs !! "unvaried_start_date") /\
  unvaried_start_time o = default VNone (kwargs !! "unvaried_start_time") /\
  unvaried_end_date o = default VNone (kwargs !! "unvaried_end_date") /\
  unvaried_end_time o = default VNone (kwargs !! "unvaried_end_time") /\
  generator o = g /\ cancelled o = false /\ hide_from_lists o = false.
Proof.
  intros Hdom. rewrite init_fields by done. intros [= <-]. simpl.
  repeat split; by intros x ->.
Qed.

(** X22.  Built with a varied start date that differs from the unvaried
    one, the occurrence is moved, with or without an end. *)
Theorem init_with_other_start_date_is_moved varied_by g kwargs sd st sd' o :
  dom kwargs ⊆ list_to_set field_names ->
  kwargs !! "unvaried_start_date" = Some (VDate sd) ->
  kwargs !! "unvaried_start_time" = Some (VTime st) ->
  kwargs !! "varied_start_date" = Some (VDate sd') ->
  kwargs !! "varied_start_time" = None ->
  sd' <> sd ->
  __init__ varied_by g kwargs = Ok o ->
  varied_start o = Ok (Datetime sd' st) /\ is_moved o = Ok true.
Proof.
  intros Hdom Husd Hust Hvsd Hvst Hne.
  rewrite init_fields by done. intros [= <-].
  unfold is_moved, _is_moved, unvaried_start, varied_start,
    _get_unvaried_start, _get_varied_start. simpl.
  rewrite Husd, Hust, Hvsd, Hvst. simpl. split; [done|].
  assert (datetime_ne (Datetime sd st) (Datetime sd' st) = true) as ->; [|done].
  apply datetime_ne_true. congruence.
Qed.

End ConstructionFacts.

(** ** Cancelling *)

Section CancelFacts.

Context `{Collaborators}.

Variable Store : Type.
Variable save : OccurrenceBase -> Store -> Store * result unit.

Implicit Types (self other : OccurrenceBase) (db : Store).

Local Open Scope Z_scope.

(** X23.  [cancel] sets the flag before it saves: the write receives the
    occurrence already cancelled, the store and the outcome are those of
    that write, and the occurrence in memory stays cancelled even when
    the write raises.  No other attribute is touched: equality, order,
    [is_moved] and the hiding flag are as before. *)
Theorem cancel_sets_flag_then_saves self db other :
  let self' := (cancel Store save self db).1.1 in
  cancelled self' = true /\
  ((cancel Store save self db).1.2, (cancel Store save self db).2)
  = save self' db /\
  hide_from_lists self' = hide_from_lists self /\
  varied_event self' = varied_event self /\
  is_moved self' = is_moved self /\
  __eq__ self' other = __eq__ self other /\
  __cmp__ self' other = __cmp__ self other.
Proof.
  unfold cancel. simpl.
  destruct (save (assign_flags true (hide_from_lists self) self) db) as [db' r]
    eqn:Hsave.
  simpl. rewrite Hsave. repeat split.
Qed.

(** X24.  In memory, cancelling twice is cancelling once, and
    uncancelling a cancelled occurrence gives back the occurrence as it
    was before it was cancelled, whatever the writes do. *)
Theorem cancel_uncancel_round_trip self db db' :
  (cancel Store save (cancel Store save self db).1.1 db').1.1
  = (cancel Store save self db).1.1 /\
  (uncancel Store save (uncancel Store save self db).1.1 db').1.1
  = (uncancel Store save self db).1.1 /\
  (cancelled self = false ->
   (uncancel Store save (cancel Store save self db).1.1 db').1.1 = self) /\
  (cancelled self = true ->
   (cancel Store save (uncancel Store save self db).1.1 db').1.1 = self).
Proof.
  unfold cancel, uncancel.
  destruct (save (assign_flags true _ self) db) as [d1 r1].
  destruct (save (assign_flags false _ self) db) as [d2 r2]. simpl.
  destruct (save (assign_flags true _ (assign_flags true _ self)) db')
    as [d3 r3].
  destruct (save (assign_flags false _ (assign_flags false _ self)) db')
    as [d4 r4].
  destruct (save (assign_flags false _ (assign_flags true _ self)) db')
    as [d5 r5].
  destruct (save (assign_flags true _ (assign_flags false _ self)) db')
    as [d6 r6]. simpl.
  repeat split.
  - intros Hc. destruct self; simpl in *. by subst.
  - intros Hc. destruct self; simpl in *. by subst.
Qed.

(** X25.  A cancelled occurrence without a variation has the reason
    "Cancelled", whatever its dates; it is varied as soon as [is_moved]
    answers, and when [is_moved] raises, [is_varied] raises with it.
    After [uncancel] an occurrence that was not moved is not varied. *)
Theorem cancel_then_reason_and_is_varied self db :
  let self' := (cancel Store save self db).1.1 in
  (varied_event self = None -> reason self' = Ok "Cancelled") /\
  (forall m, is_moved self = Ok m -> is_varied self' = Ok true) /\
  (forall e, is_moved self = Raise e -> is_varied self' = Raise e) /\
  (is_moved self = Ok false ->
   is_varied (uncancel Store save self db).1.1 = Ok false).
Proof.
  unfold cancel, uncancel.
  destruct (save (assign_flags true _ self) db) as [d1 r1].
  destruct (save (assign_flags false _ self) db) as [d2 r2]. simpl.
  assert (forall c h, is_moved (assign_flags c h self) = is_moved self)
    as Hmoved by done.
  unfold is_varied, _is_varied. rewrite !Hmoved.
  repeat split.
  - intros Hv. unfold reason.
    change (varied_event (assign_flags true (hide_from_lists self) self))
      with (varied_event self).
    by rewrite Hv.
  - intros m ->. simpl. by destruct m.
  - by intros e ->.
  - by intros ->.
Qed.

End CancelFacts.

(** ** Texts *)

Section DisplayFacts.

Context `{Collaborators}.

Variable event_title : Event -> string.
Variable ugettext : string -> string.
Variable py_percent : string -> gmap string string -> result string.

Implicit Types (self other : OccurrenceBase).

Local Open Scope Z_scope.

(** X26.  For an occurrence that is not moved, the varied range string is
    the unvaried range string. *)
Theorem range_strings_agree_when_not_moved self :
  is_moved self = Ok false ->
  varied_range_string ugettext py_percent self
  = unvaried_range_string ugettext py_percent self.
Proof.
  rewrite is_moved_ok_false. intros (s & e & Hus & Hvs & Hue & Hve).
  unfold varied_range_string, unvaried_range_string.
  by rewrite Hus, Hvs, Hue, Hve.
Qed.

(** X27.  [__unicode__] and [date_description] read the varied start and,
    for the title, the generator - nothing else: two occurrences that
    agree there have the same texts, whatever their ends, their unvaried
    fields and their flags. *)
Theorem descriptions_read_start_only self other :
  generator self = generator other ->
  varied_start_date self = varied_start_date other ->
  varied_start_time self = varied_start_time other ->
  __unicode__ event_title ugettext py_percent self
  = __unicode__ event_title ugettext py_percent other /\
  date_description ugettext py_percent self
  = date_description ugettext py_percent other.
Proof.
  unfold __unicode__, date_description, varied_start, _get_varied_start.
  by intros -> -> ->.
Qed.

(** X28.  How the texts fail, before anything is formatted: with
    [TypeError] when the varied start cannot be computed; with
    [ValueError] when its year is before 1900; and the varied range
    string with [TypeError] when the varied end time is absent, where
    [date_description] still goes on to format day and time. *)
Theorem texts_failures self :
  (forall e, varied_start self = Raise e ->
     __unicode__ event_title ugettext py_percent self = Raise TypeError /\
     date_description ugettext py_percent self = Raise TypeError /\
     varied_range_string ugettext py_percent self = Raise TypeError) /\
  (forall s, varied_start self = Ok s -> year (dt_date s) < 1900 ->
     __unicode__ event_title ugettext py_percent self = Raise ValueError /\
     date_description ugettext py_percent self = Raise ValueError /\
     varied_range_string ugettext py_percent self = Raise ValueError) /\
  (forall s, varied_start self = Ok s -> 1900 <= year (dt_date s) ->
     varied_end_time self = VNone ->
     varied_range_string ugettext py_percent self = Raise TypeError /\
     date_description ugettext py_percent self
     = py_percent (ugettext "%(day)s, %(time)s")
         {[ "day" := day_text (dt_date s);
            "time" := strftime_HM (dt_time s) ]}).
Proof.
  unfold __unicode__, date_description, varied_range_string.
  split; [|split].
  - intros e He.
    assert (e = TypeError) as ->
      by (unfold varied_start, _get_varied_start in He; by eapply combine_raises).
    by rewrite He.
  - intros s -> Hy. simpl.
    unfold strftime_day, strftime_day_time, strftime_time.
    by rewrite (proj2 (Z.ltb_lt _ _) Hy).
  - intros s Hs Hy Hend. rewrite Hs. simpl.
    unfold strftime_day, strftime_day_time, strftime_time.
    rewrite (proj2 (Z.ltb_ge _ _) Hy). simpl. split; [|done].
    unfold varied_end, _get_varied_end. rewrite Hend.
    by rewrite combine_no_time.
Qed.

End DisplayFacts.

(** ** The further properties on the sample data *)

Section WorkedFurther.

Import Sample.

Local Open Scope Z_scope.

Lemma is_moved_by_start_witness :
  is_moved retimed = Ok true /\
  is_moved (assign_varied_end VNone VNone
              (assign_unvaried_end VNone VNone retimed)) = Ok true.
Proof.
  assert (Datetime new_year (hm 9 0) <> Datetime new_year (hm 8 0)) as Hne
    by discriminate.
  destruct (is_moved_by_start retimed (Datetime new_year (hm 9 0))
              (Datetime new_year (hm 8 0)) eq_refl eq_refl Hne) as [H1 H2].
  split; [exact H1 | exact (H2 VNone VNone VNone VNone)].
Defined.

Lemma eq_symmetric_witness :
  __eq__ retimed (plain second_generator)
  = __eq__ (plain second_generator) retimed.
Proof. exact (eq_symmetric retimed (plain second_generator) eq_refl). Defined.

Lemma eq_transitive_witness :
  __eq__ retimed (plain first_generator) = Ok true /\
  __eq__ (plain first_generator) (plain second_generator) = Ok true /\
  __eq__ retimed (plain second_generator) = Ok true.
Proof.
  split; [reflexivity|]. split; [reflexivity|].
  exact (eq_transitive retimed (plain first_generator) (plain second_generator)
           (fun _ _ => eq_refl) eq_refl eq_refl).
Defined.

Lemma cmp_transitive_witness :
  __cmp__ retimed (plain first_generator) = Ok (-1) /\
  __cmp__ (plain first_generator) postponed = Ok (-1) /\
  exists r, __cmp__ retimed postponed = Ok r /\ r < 0.
Proof.
  split; [reflexivity|]. split; [reflexivity|].
  apply (cmp_transitive retimed (plain first_generator) postponed (-1) (-1));
    reflexivity.
Defined.

Lemma cmp_reads_varied_only_witness :
  __cmp__ (plain first_generator) retimed
  = __cmp__ (plain second_generator) retimed.
Proof.
  exact (cmp_reads_varied_only (plain first_generator) (plain second_generator)
           retimed retimed
           eq_refl eq_refl eq_refl eq_refl eq_refl eq_refl eq_refl eq_refl).
Defined.

Lemma reason_silent_on_end_date_witness :
  is_moved overnight = Ok true /\ reason overnight = Ok "".
Proof.
  apply (reason_silent_on_end_date overnight new_year (hm 9 0) new_year
           (hm 10 0) (Date 2024 1 2));
    (reflexivity || discriminate).
Defined.

Lemma reason_one_sided_end_time_witness :
  reason given_an_end = Raise TypeError.
Proof.
  exact (proj1 (reason_one_sided_end_time given_an_end (hm 9 0) (hm 9 0)
                  (hm 10 0) eq_refl eq_refl eq_refl eq_refl)
               eq_refl eq_refl).
Defined.

Lemma attached_variation_gives_reason_witness :
  reason (_set_varied_event (Some "moved indoors") variable_plain).1
  = Ok "moved indoors".
Proof.
  exact (proj1 (proj2 (proj2
           (attached_variation_gives_reason variable_plain None "moved indoors"
              retimed eq_refl)))).
Defined.

Lemma generated_id_sound_witness :
  generated_id get_occurrences (plain first_generator) = Ok 0%nat /\
  exists y, [plain first_generator; plain second_generator] !! 0%nat = Some y /\
            __eq__ y (plain first_generator) = Ok true.
Proof.
  split; [reflexivity|].
  destruct (generated_id_sound get_occurrences (plain first_generator) 0%nat
              eq_refl)
    as (s & d' & l & y & Hs & Hd & Hl & Hy & _ & Heq & _).
  exists y. split; [|exact Heq].
  injection Hl as <-. exact Hy.
Defined.

Lemma init_keeps_explicit_varied_witness :
  exists o, __init__ false first_generator moved_kwargs = Ok o /\
            varied_start_date o = VDate (Date 2024 1 2) /\
            unvaried_start_date o = VDate new_year.
Proof.
  assert (dom moved_kwargs ⊆ list_to_set field_names) as Hdom.
  { apply (bool_decide_unpack _). vm_compute. exact I. }
  destruct (__init__ false first_generator moved_kwargs) as [o|] eqn:Ho;
    [|vm_compute in Ho; discriminate].
  exists o. split; [reflexivity|].
  destruct (init_keeps_explicit_varied false first_generator moved_kwargs o
              Hdom Ho) as (Hvsd & _ & _ & _ & Husd & _).
  split.
  - apply Hvsd. vm_compute. reflexivity.
  - rewrite Husd. vm_compute. reflexivity.
Defined.

Lemma init_with_other_start_date_is_moved_witness :
  exists o, __init__ false first_generator moved_kwargs = Ok o /\
            is_moved o = Ok true.
Proof.
  assert (dom moved_kwargs ⊆ list_to_set field_names) as Hdom.
  { apply (bool_decide_unpack _). vm_compute. exact I. }
  destruct (__init__ false first_generator moved_kwargs) as [o|] eqn:Ho;
    [|vm_compute in Ho; discriminate].
  exists o. split; [reflexivity|].
  apply (init_with_other_start_date_is_moved false first_generator
           moved_kwargs new_year (hm 9 0) (Date 2024 1 2) o Hdom);
    try (vm_compute; reflexivity); [discriminate | exact Ho].
Defined.

Lemma range_strings_agree_when_not_moved_witness :
  varied_range_string ugettext py_percent (plain first_generator)
  = unvaried_range_string ugettext py_percent (plain first_generator).
Proof.
  exact (range_strings_agree_when_not_moved ugettext py_percent
           (plain first_generator) eq_refl).
Defined.

Lemma descriptions_read_start_only_witness :
  __unicode__ event_title ugettext py_percent (plain first_generator)
  = __unicode__ event_title ugettext py_percent overnight /\
  date_description ugettext py_percent (plain first_generator)
  = date_description ugettext py_percent overnight.
Proof.
  exact (descriptions_read_start_only event_title ugettext py_percent
           (plain first_generator) overnight eq_refl eq_refl eq_refl).
Defined.

(** The texts of the retimed occurrence, and a cancellation that cannot
    be written. *)
Example texts_of_retimed :
  varied_range_string ugettext py_percent retimed
  = Ok "Mon, 01 Jan 2024 08:00–Mon, 01 Jan 2024 10:30" /\
  unvaried_range_string ugettext py_percent retimed
  = Ok "Mon, 01 Jan 2024 09:00–Mon, 01 Jan 2024 10:00" /\
  date_description ugettext py_percent retimed = Ok "Mon, 01 Jan 2024, 08:00" /\
  __unicode__ event_title ugettext py_percent retimed
  = Ok "Concert: Mon, 01 Jan 2024".
Proof. vm_compute. repeat split. Qed.

Example cancel_while_database_is_down :
  let '(self, db, outcome) := cancel _ save_down retimed [] in
  cancelled self = true /\ db = [] /\ outcome = Raise ValueError.
Proof. vm_compute. repeat split. Qed.

End WorkedFurther.
